(** * A WordPress REST client exposed as MCP tools ([main.py])

    The program is a thin client: every tool builds a URL, performs one
    HTTP GET ([fetch_post_response_data]), and reshapes the decoded JSON
    ([format_post_response_data], or an inline dict display for
    categories).  This file embeds those functions and proves the
    properties listed for them.

    Python values are embedded as the type [json]; a Python [dict] with
    string keys is a [gmap string json], so equality of embedded dicts is
    Python's [==] on dicts (insertion order is not observable).
    Exceptions are values of [exn] and a computation that may raise
    returns a [result].  The network is an explicit state: the list of
    requests handed to the HTTP client so far. *)

From Stdlib Require Import ZArith Ascii String DecimalString Floats.SpecFloat.
From stdpp Require Import gmap strings list fin_maps.

Set Warnings "-register-all".

(** ** Python values *)

(** What [response.json()] can return, and what the tools return. *)
Inductive json : Type :=
  | JNull
  | JBool (b : bool)
  | JInt (n : Z)
  | JFloat (f : spec_float)
  | JString (s : string)
  | JArray (items : list json)
  | JObject (fields : gmap string json).

(** The Python type of a value, as it appears in a [TypeError]. *)
Inductive pytype : Type :=
  | NoneType | Bool | Int | Float | Str | List | Dict.

Definition type_of (v : json) : pytype :=
  match v with
  | JNull => NoneType
  | JBool _ => Bool
  | JInt _ => Int
  | JFloat _ => Float
  | JString _ => Str
  | JArray _ => List
  | JObject _ => Dict
  end.

(** ** HTTP messages (the part of httpx the program touches) *)

Record Request : Type := mkRequest {
  method : string;
  url : string;
  headers : list (string * string)
}.

Record Response : Type := mkResponse {
  status_code : Z;
  text : string;
  request : Request
}.

(** ** Exceptions *)

(** Why a [TypeError] was raised: [v[k]] on a value that cannot be
    subscripted with a string, or [for x in v] on a value that cannot be
    iterated. *)
Inductive type_error : Type :=
  | BadSubscript (t : pytype)
  | NotIterable (t : pytype).

Inductive exn : Type :=
  | HTTPStatusError (message : string) (req : Request) (resp : Response)
  | RequestError (reason : string)
  | KeyError (key : string)
  | TypeError (why : type_error).

(** The class of an exception: what [except C] and [isinstance] see. *)
Inductive exn_class : Type :=
  | ClsHTTPStatusError | ClsRequestError | ClsKeyError | ClsTypeError.

Definition class_of (e : exn) : exn_class :=
  match e with
  | HTTPStatusError _ _ _ => ClsHTTPStatusError
  | RequestError _ => ClsRequestError
  | KeyError _ => ClsKeyError
  | TypeError _ => ClsTypeError
  end.

(** A computation either returns or raises. *)
Inductive result (A : Type) : Type :=
  | Ok (a : A)
  | Raise (e : exn).
Arguments Ok {A} a.
Arguments Raise {A} e.

#[global] Instance result_ret : MRet result := fun A a => Ok a.
#[global] Instance result_bind : MBind result := fun A B f r =>
  match r with
  | Ok a => f a
  | Raise e => Raise e
  end.

#[global] Instance result_fmap : FMap result := fun A B f r =>
  match r with
  | Ok a => Ok (f a)
  | Raise e => Raise e
  end.

Definition returns {A : Type} (r : result A) : bool :=
  match r with Ok _ => true | Raise _ => false end.

(** ** Subscription and iteration *)

(** [v[k]] for a string key [k].  Only a dict can be subscripted with a
    string: a missing key raises [KeyError(k)], every other type raises
    [TypeError]. *)
Definition getitem (v : json) (k : string) : result json :=
  match v with
  | JObject d =>
      match d !! k with
      | Some x => Ok x
      | None => Raise (KeyError k)
      end
  | _ => Raise (TypeError (BadSubscript (type_of v)))
  end.

Fixpoint chars (s : string) : list json :=
  match s with
  | EmptyString => []
  | String c s' => JString (String c EmptyString) :: chars s'
  end.

(** [for x in v]: a list yields its elements, a dict its keys, a string
    its characters; the other types are not iterable.  (The embedded dict
    has no insertion order; its keys come in the order of [map_to_list].) *)
Definition iterate (v : json) : result (list json) :=
  match v with
  | JArray l => Ok l
  | JObject d => Ok (JString <$> (map_to_list d).*1)
  | JString s => Ok (chars s)
  | _ => Raise (TypeError (NotIterable (type_of v)))
  end.

(** A list comprehension [[f(x) for x in v]]: elements are shaped left to
    right and the first exception ends the comprehension. *)
Definition comprehension (f : json -> result json) (v : json) : result json :=
  l ← iterate v; JArray <$> mapM f l.

(** ** The shaper *)

(** [format_post_response_data(response)]: the dict display evaluates its
    values top to bottom. *)
Definition format_post_response_data (response : json) : result json :=
  id ← getitem response "id";
  date ← getitem response "date";
  link ← getitem response "link";
  title ← (t ← getitem response "title"; getitem t "rendered");
  content ← (c ← getitem response "content"; getitem c "rendered");
  featured_media ← getitem response "featured_media";
  mret (JObject (<["featured_media" := featured_media]>
                (<["content" := content]>
                (<["title" := title]>
                (<["link" := link]>
                (<["date" := date]>
                (<["id" := id]> ∅))))))).

(** The dict display inside the comprehension of [fetch_categories_tool]. *)
Definition format_category (category : json) : result json :=
  id ← getitem category "id";
  name ← getitem category "name";
  count ← getitem category "count";
  link ← getitem category "link";
  mret (JObject (<["link" := link]>
                (<["count" := count]>
                (<["name" := name]>
                (<["id" := id]> ∅))))).

(** The dict display of [fetch_wordpress_info_tool]. *)
Definition format_site_info (response_data : json) : result json :=
  name ← getitem response_data "name";
  description ← getitem response_data "description";
  url ← getitem response_data "url";
  mret (JObject (<["url" := url]>
                (<["description" := description]>
                (<["name" := name]> ∅)))).

(** ** The network *)

(** The outcome of one call of [client.get]: a response, with its status
    and body, or no response at all, because httpx refused the URL before
    sending anything or because the transport failed (connection refused,
    timeout, ...). *)
Inductive reply : Type :=
  | Reply (status : Z) (body : string)
  | NoReply (reason : string).

(** The state threaded through a tool call: the requests handed to the
    HTTP client so far, oldest first.  An entry is a call of [client.get]
    with the URL and the headers the program passes; what httpx makes of
    the URL before it sends anything is the subject of [Httpx] below. *)
Definition World : Type := list Request.

(** A computation that talks to the network. *)
Definition IO (A : Type) : Type := World -> result A * World.

#[global] Instance IO_ret : MRet IO := fun A a w => (Ok a, w).
#[global] Instance IO_bind : MBind IO := fun A B f m w =>
  match m w with
  | (Ok a, w') => f a w'
  | (Raise e, w') => (Raise e, w')
  end.

(** A pure step inside [IO]: returns or raises without touching the
    network. *)
Definition lift {A : Type} (r : result A) : IO A := fun w => (r, w).

(** [str(n)] for a Python int. *)
Definition str_int (n : Z) : string := NilZero.string_of_int (Z.to_int n).

(** [str(x)] for the value of [os.getenv]: an unset variable is [None]. *)
Definition str_env (x : option string) : string := default "None" x.

(** [codes.is_success] of httpx. *)
Definition is_success (r : Response) : bool :=
  (200 <=? status_code r)%Z && (status_code r <=? 299)%Z.

Definition USER_AGENT : string := "wordpress-app/1.0".

(** The environment the module runs in. *)
Record Host : Type := mkHost {
  (** [os.getenv("WORDPRESS_URL")], read once at import. *)
  WORDPRESS_URL : option string;
  (** The remote side: its answer to a request may depend on the requests
      it has already received. *)
  server : list Request -> Request -> reply;
  (** Python's JSON decoder applied to a body; [None] when decoding raises
      [ValueError], the one failure of the decoder that the program
      handles.  A decoder that gives up in another way (on nesting too deep
      for the interpreter) is outside this embedding. *)
  json_loads : string -> option json;
  (** The message httpx puts in the exception of [raise_for_status]. *)
  status_message : Response -> string
}.

Section Tools.

Context (host : Host).

(** [await client.get(url, headers=headers)]: the call is recorded with
    the arguments the program passes, and its outcome is the host's; a
    response keeps the request it answers. *)
Definition client_get (u : string) (h : list (string * string)) : IO Response :=
  fun w =>
    let rq := mkRequest "GET" u h in
    match server host w rq with
    | Reply status body => (Ok (mkResponse status body rq), w ++ [rq])
    | NoReply reason => (Raise (RequestError reason), w ++ [rq])
    end.

(** [response.raise_for_status()]. *)
Definition raise_for_status (r : Response) : result unit :=
  if is_success r then Ok tt
  else Raise (HTTPStatusError (status_message host r) (request r) r).

Definition fetch_post_response_data (u : string) : IO json :=
  let headers := [("User-Agent", USER_AGENT)] in
  response ← client_get u headers;
  _ ← lift (raise_for_status response);
  match json_loads host (text response) with
  | Some v => mret v
  | None =>
      lift (Raise (HTTPStatusError
                     ("Invalid JSON response from " +:+ u +:+ ": " +:+ text response)
                     (request response) response))
  end.

(** *** The tools.  An omitted argument is [None] and takes the default
    of the signature. *)

Definition fetch_wordpress_info_tool : IO json :=
  let u := str_env (WORDPRESS_URL host) +:+ "/wp-json" in
  response_data ← fetch_post_response_data u;
  lift (format_site_info response_data).

Definition fetch_posts_url (page per_page : Z) : string :=
  str_env (WORDPRESS_URL host) +:+ "/wp-json/wp/v2/posts?page=" +:+ str_int page
    +:+ "&per_page=" +:+ str_int per_page.

Definition fetch_posts_tool (page per_page : option Z) : IO json :=
  let page := default 1%Z page in
  let per_page := default 2%Z per_page in
  let u := fetch_posts_url page per_page in
  response_data ← fetch_post_response_data u;
  lift (comprehension format_post_response_data response_data).

Definition fetch_posts_by_category_url (category : string) (page : Z) : string :=
  str_env (WORDPRESS_URL host) +:+ "/wp-json/wp/v2/posts?categories=" +:+ category
    +:+ "&page=" +:+ str_int page.

Definition fetch_posts_by_category_tool (category : string) (page : option Z) : IO json :=
  let page := default 1%Z page in
  let u := fetch_posts_by_category_url category page in
  response_data ← fetch_post_response_data u;
  lift (comprehension format_post_response_data response_data).

Definition fetch_categories_tool : IO json :=
  let u := str_env (WORDPRESS_URL host) +:+ "/wp-json/wp/v2/categories" in
  response_data ← fetch_post_response_data u;
  lift (comprehension format_category response_data).

Definition fetch_post_by_id_tool (post_id : Z) : IO json :=
  let u := str_env (WORDPRESS_URL host) +:+ "/wp-json/wp/v2/posts/" +:+ str_int post_id in
  response_data ← fetch_post_response_data u;
  lift (format_post_response_data response_data).

Definition fetch_pages_url (page per_page : Z) : string :=
  str_env (WORDPRESS_URL host) +:+ "/wp-json/wp/v2/pages?page=" +:+ str_int page
    +:+ "&per_page=" +:+ str_int per_page.

Definition fetch_pages_tool (page per_page : option Z) : IO json :=
  let page := default 1%Z page in
  let per_page := default 2%Z per_page in
  let u := fetch_pages_url page per_page in
  response_data ← fetch_post_response_data u;
  lift (comprehension format_post_response_data response_data).

Definition fetch_page_by_id_tool (page_id : Z) : IO json :=
  let u := str_env (WORDPRESS_URL host) +:+ "/wp-json/wp/v2/pages/" +:+ str_int page_id in
  response_data ← fetch_post_response_data u;
  lift (format_post_response_data response_data).

End Tools.

(** The request [fetch_post_response_data(u)] hands to the client. *)
Definition get_request (u : string) : Request :=
  mkRequest "GET" u [("User-Agent", USER_AGENT)].

(** In the world [w] the server answers a GET of [u] with a success status
    and a body that decodes to [v]. *)
Definition serves (host : Host) (w : World) (u : string) (v : json) : Prop :=
  exists status body,
    server host w (get_request u) = Reply status body /\
    (200 <= status <= 299)%Z /\
    json_loads host body = Some v.

(** [e.response] of an exception, where it has one. *)
Definition response_of (e : exn) : option Response :=
  match e with
  | HTTPStatusError _ _ resp => Some resp
  | _ => None
  end.

(** [str(e)] of an [HTTPStatusError]. *)
Definition message_of (e : exn) : option string :=
  match e with
  | HTTPStatusError msg _ _ => Some msg
  | _ => None
  end.

(** [needle in hay] on strings. *)
Definition occurs_in (needle hay : string) : Prop :=
  exists pre post, hay = pre +:+ needle +:+ post.



(** ** What httpx makes of a URL string

    The program hands [client.get] a string; the request that leaves the
    machine carries what httpx's URL parser makes of it.  This is the part
    of that parser that decides the query of the request: the checks that
    refuse a URL outright, the split at [?] and [#], and the
    percent-encoding of the query. *)

Module Httpx.




















End Httpx.


(** The four tools that shape a list, with their URL and the shape they
    apply to each element. *)
Inductive list_tool : Type :=
  | FetchPosts (page per_page : option Z)
  | FetchPostsByCategory (category : string) (page : option Z)
  | FetchPages (page per_page : option Z)
  | FetchCategories.

Definition run_list_tool (host : Host) (t : list_tool) : IO json :=
  match t with
  | FetchPosts page per_page => fetch_posts_tool host page per_page
  | FetchPostsByCategory category page => fetch_posts_by_category_tool host category page
  | FetchPages page per_page => fetch_pages_tool host page per_page
  | FetchCategories => fetch_categories_tool host
  end.

Definition list_tool_url (host : Host) (t : list_tool) : string :=
  match t with
  | FetchPosts page per_page =>
      fetch_posts_url host (default 1%Z page) (default 2%Z per_page)
  | FetchPostsByCategory category page =>
      fetch_posts_by_category_url host category (default 1%Z page)
  | FetchPages page per_page =>
      fetch_pages_url host (default 1%Z page) (default 2%Z per_page)
  | FetchCategories => str_env (WORDPRESS_URL host) +:+ "/wp-json/wp/v2/categories"
  end.

Definition list_tool_shape (t : list_tool) : json -> result json :=
  match t with
  | FetchCategories => format_category
  | _ => format_post_response_data
  end.

(** ** Key paths *)

(** The value found by following a path of keys through nested dicts. *)
Fixpoint lookup_path (v : json) (p : list string) : option json :=
  match p with
  | [] => Some v
  | k :: p' =>
      match v with
      | JObject d =>
          match d !! k with
          | Some x => lookup_path x p'
          | None => None
          end
      | _ => None
      end
  end.

(** The key paths [format_post_response_data] reads, in evaluation order. *)
Definition post_paths : list (list string) :=
  [ ["id"]; ["date"]; ["link"]; ["title"; "rendered"];
    ["content"; "rendered"]; ["featured_media"] ].

(** The keys the category display reads, in evaluation order. *)
Definition category_paths : list (list string) :=
  [ ["id"]; ["name"]; ["count"]; ["link"] ].

Definition has_paths (paths : list (list string)) (v : json) : Prop :=
  Forall (fun p => is_Some (lookup_path v p)) paths.

Definition misses_path (paths : list (list string)) (v : json) : Prop :=
  Exists (fun p => lookup_path v p = None) paths.

Definition post_keys : gset string :=
  {[ "id"; "date"; "link"; "title"; "content"; "featured_media" ]}.

Definition category_keys : gset string :=
  {[ "id"; "name"; "count"; "link" ]}.

(** [s] is the summary of the post [p]: six keys, each holding the value
    found in [p] under the corresponding path. *)
Definition summary_of (p s : json) : Prop :=
  exists m, s = JObject m /\ dom m = post_keys /\
    m !! "id" = lookup_path p ["id"] /\
    m !! "date" = lookup_path p ["date"] /\
    m !! "link" = lookup_path p ["link"] /\
    m !! "title" = lookup_path p ["title"; "rendered"] /\
    m !! "content" = lookup_path p ["content"; "rendered"] /\
    m !! "featured_media" = lookup_path p ["featured_media"].

(** ** Python objects in a store

    A dict or a list is a mutable object: a variable holds a reference to
    it and every alias sees an update.  To say that a function leaves its
    argument alone, the shaper is embedded a second time over an explicit
    store of objects. *)

Module Heap.

Abbreviation loc := positive.

(** A value is immediate (None, numbers and strings are immutable) or a
    reference to a dict or a list in the store. *)
Inductive val : Type :=
  | VNone
  | VBool (b : bool)
  | VInt (n : Z)
  | VFloat (f : spec_float)
  | VStr (s : string)
  | VRef (l : loc).

Inductive obj : Type :=
  | ODict (d : gmap string val)
  | OList (xs : list val).

Abbreviation heap := (gmap loc obj).

(** A computation over the store; [None] stands for a dangling
    reference, which no Python program can hold. *)
Definition HM (A : Type) : Type := heap -> option (result A * heap).

#[global] Instance HM_ret : MRet HM := fun A a h => Some (Ok a, h).
#[global] Instance HM_bind : MBind HM := fun A B f m h =>
  match m h with
  | Some (Ok a, h') => f a h'
  | Some (Raise e, h') => Some (Raise e, h')
  | None => None
  end.

(** [v[k]] for a string key: reads the store, never writes it. *)
Definition getitem (v : val) (k : string) : HM val := fun h =>
  match v with
  | VRef l =>
      match h !! l with
      | Some (ODict d) =>
          match d !! k with
          | Some x => Some (Ok x, h)
          | None => Some (Raise (KeyError k), h)
          end
      | Some (OList _) => Some (Raise (TypeError (BadSubscript List)), h)
      | None => None
      end
  | VNone => Some (Raise (TypeError (BadSubscript NoneType)), h)
  | VBool _ => Some (Raise (TypeError (BadSubscript Bool)), h)
  | VInt _ => Some (Raise (TypeError (BadSubscript Int)), h)
  | VFloat _ => Some (Raise (TypeError (BadSubscript Float)), h)
  | VStr _ => Some (Raise (TypeError (BadSubscript Str)), h)
  end.

(** A dict display [{...}]: a new object at an unused location. *)
Definition new_dict (d : gmap string val) : HM val := fun h =>
  let l := fresh (dom h) in
  Some (Ok (VRef l), <[l := ODict d]> h).

Definition format_post_response_data (response : val) : HM val :=
  id ← getitem response "id";
  date ← getitem response "date";
  link ← getitem response "link";
  title ← (t ← getitem response "title"; getitem t "rendered");
  content ← (c ← getitem response "content"; getitem c "rendered");
  featured_media ← getitem response "featured_media";
  new_dict (<["featured_media" := featured_media]>
           (<["content" := content]>
           (<["title" := title]>
           (<["link" := link]>
           (<["date" := date]>
           (<["id" := id]> ∅)))))).

(** No dangling references: in the value, and in the store. *)
Definition wf_val (h : heap) (v : val) : Prop :=
  match v with
  | VRef l => is_Some (h !! l)
  | _ => True
  end.

Definition wf_obj (h : heap) (o : obj) : Prop :=
  match o with
  | ODict d => map_Forall (fun _ v => wf_val h v) d
  | OList xs => Forall (wf_val h) xs
  end.

Definition wf_heap (h : heap) : Prop := map_Forall (fun _ o => wf_obj h o) h.

#[global] Instance wf_val_dec (h : heap) (v : val) : Decision (wf_val h v).
Proof. destruct v; simpl; apply _. Defined.

#[global] Instance wf_obj_dec (h : heap) (o : obj) : Decision (wf_obj h o).
Proof. destruct o; simpl; apply _. Defined.

#[global] Instance wf_heap_dec (h : heap) : Decision (wf_heap h).
Proof. unfold wf_heap. apply _. Defined.

(** All values of a dict through [f], or nothing if [f] fails on one. *)
Definition traverse (f : val -> option json) (d : gmap string val)
  : option (gmap string json) :=
  if decide (map_Forall (fun _ x => is_Some (f x)) d)
  then Some (omap f d) else None.

(** The whole value a reference stands for, read off the store down to
    depth [n]. *)
Fixpoint reify (n : nat) (h : heap) (v : val) : option json :=
  match v with
  | VNone => Some JNull
  | VBool b => Some (JBool b)
  | VInt z => Some (JInt z)
  | VFloat f => Some (JFloat f)
  | VStr s => Some (JString s)
  | VRef l =>
      match n with
      | O => None
      | S n' =>
          match h !! l with
          | Some (ODict d) => JObject <$> traverse (reify n' h) d
          | Some (OList xs) => JArray <$> mapM (reify n' h) xs
          | None => None
          end
      end
  end.

(** A store holding one post and the two objects it refers to. *)
Definition sample_store : heap :=
  <[1%positive := ODict (<["id" := VInt 7]>
                        (<["date" := VStr "2024-01-01T00:00:00"]>
                        (<["link" := VStr "https://x/p"]>
                        (<["title" := VRef 2]>
                        (<["content" := VRef 3]>
                        (<["featured_media" := VInt 0]> ∅))))))]>
  (<[2%positive := ODict {[ "rendered" := VStr "Hello" ]}]>
  (<[3%positive := ODict {[ "rendered" := VStr "<p>Hi</p>" ]}]> ∅)).

End Heap.

(** ** Sample data *)

Definition rendered (s : string) : json := JObject {[ "rendered" := JString s ]}.

(** A well-formed post, with one key more than the shaper reads. *)
Definition sample_post_fields (i : Z) (title content : string) : gmap string json :=
  <["id" := JInt i]>
  (<["date" := JString "2024-01-01T00:00:00"]>
  (<["link" := JString "https://x/p"]>
  (<["title" := rendered title]>
  (<["content" := rendered content]>
  (<["featured_media" := JInt 0]>
  (<["status" := JString "publish"]> ∅)))))).

Definition sample_post (i : Z) (title content : string) : json :=
  JObject (sample_post_fields i title content).

(** A post whose [title] is a plain string instead of an object with a
    [rendered] key. *)
Definition post_with_string_title : json :=
  JObject (<["id" := JInt 1]>
          (<["date" := JString "2024-01-01T00:00:00"]>
          (<["link" := JString "https://x/p"]>
          (<["title" := JString "Hello"]>
          (<["content" := rendered "<p>Hi</p>"]>
          (<["featured_media" := JInt 0]> ∅)))))).

(** A post without [link]. *)
Definition post_without_link_fields : gmap string json :=
  <["id" := JInt 1]>
  (<["date" := JString "2024-01-01T00:00:00"]>
  (<["title" := rendered "Hello"]>
  (<["content" := rendered "<p>Hi</p>"]>
  (<["featured_media" := JInt 0]> ∅)))).

Definition post_without_link : json := JObject post_without_link_fields.

Definition news_category : gmap string json :=
  <["id" := JInt 1]>
  (<["name" := JString "News"]>
  (<["count" := JInt 5]>
  (<["link" := JString "https://x/cat/news"]> ∅))).

Definition category_without_count : gmap string json :=
  <["id" := JInt 1]>
  (<["name" := JString "News"]>
  (<["link" := JString "https://x/cat/news"]> ∅)).

(** A category list whose second element lacks [count]. *)
Definition categories_one_bad : list json :=
  [JObject news_category; JObject category_without_count].

(** ** A test double for the host

    Body texts are written out as JSON; the decoder of the double is the
    table of the bodies it serves, and any other text does not decode. *)

Definition quoted (s : string) : string :=
  String (Ascii.ascii_of_nat 34) s +:+ String (Ascii.ascii_of_nat 34) EmptyString.

Fixpoint members_text (fs : list (string * string)) : string :=
  match fs with
  | [] => EmptyString
  | [(k, v)] => quoted k +:+ ":" +:+ v
  | (k, v) :: rest => quoted k +:+ ":" +:+ v +:+ "," +:+ members_text rest
  end.

Definition object_text (fs : list (string * string)) : string :=
  "{" +:+ members_text fs +:+ "}".

Definition array_text (xs : list string) : string :=
  "[" +:+ String.concat "," xs +:+ "]".

Definition post_text (i : Z) (title content : string) : string :=
  object_text
    [ ("id", str_int i);
      ("date", quoted "2024-01-01T00:00:00");
      ("link", quoted "https://x/p");
      ("title", object_text [("rendered", quoted title)]);
      ("content", object_text [("rendered", quoted content)]);
      ("featured_media", "0");
      ("status", quoted "publish") ].

Definition post_without_link_text : string :=
  object_text
    [ ("id", "1");
      ("date", quoted "2024-01-01T00:00:00");
      ("title", object_text [("rendered", quoted "Hello")]);
      ("content", object_text [("rendered", quoted "<p>Hi</p>")]);
      ("featured_media", "0") ].

Definition news_text : string :=
  object_text
    [ ("id", "1"); ("name", quoted "News"); ("count", "5");
      ("link", quoted "https://x/cat/news") ].

Definition two_posts : list json :=
  [sample_post 10 "First" "<p>one</p>"; sample_post 11 "Second" "<p>two</p>"].

Definition two_posts_body : string :=
  array_text [post_text 10 "First" "<p>one</p>"; post_text 11 "Second" "<p>two</p>"].

Definition one_bad_post : list json :=
  [sample_post 10 "First" "<p>one</p>"; post_without_link].

Definition one_bad_post_body : string :=
  array_text [post_text 10 "First" "<p>one</p>"; post_without_link_text].

Definition news_body : string := array_text [news_text].

Definition not_json_body : string := "<html>not json</html>".


Definition mock_base : string := "https://x".

Definition mock_routes : gmap string reply :=
  list_to_map
    [ (mock_base +:+ "/wp-json/wp/v2/categories", Reply 200 news_body);
      (mock_base +:+ "/wp-json/wp/v2/posts?page=1&per_page=2", Reply 200 two_posts_body);
      (mock_base +:+ "/wp-json/wp/v2/posts?categories=3&page=1", Reply 200 one_bad_post_body);
      (mock_base +:+ "/wp-json/wp/v2/pages/1", Reply 200 not_json_body);
      (mock_base +:+ "/wp-json/wp/v2/posts/999", Reply 404 "Not Found") ].

Definition mock_server (w : list Request) (rq : Request) : reply :=
  match mock_routes !! url rq with
  | Some r => r
  | None => NoReply "connection refused"
  end.

Definition mock_decoder : gmap string json :=
  list_to_map
    [ (news_body, JArray [JObject news_category]);
      (two_posts_body, JArray two_posts);
      (one_bad_post_body, JArray one_bad_post) ].

Definition mock_status_message (r : Response) : string :=
  "status " +:+ str_int (status_code r) +:+ " for url " +:+ url (request r).

Definition mock_host : Host :=
  mkHost (Some mock_base) mock_server (fun body => mock_decoder !! body)
         mock_status_message.

(** ** Following key paths with exceptions *)

(** [v[k1][k2]...]: the chain of subscriptions the shapers write, with the
    exception of the first subscription that fails. *)
Fixpoint getpath (v : json) (p : list string) : result json :=
  match p with
  | [] => Ok v
  | k :: p' => x ← getitem v k; getpath x p'
  end.

(** The exception of the first path, in the order given, that cannot be
    followed; [None] when every path can. *)
Fixpoint first_error (v : json) (paths : list (list string)) : option exn :=
  match paths with
  | [] => None
  | p :: rest =>
      match getpath v p with
      | Raise e => Some e
      | Ok _ => first_error v rest
      end
  end.

(** The keys the site-info display reads, in evaluation order. *)
Definition site_info_paths : list (list string) :=
  [ ["name"]; ["description"]; ["url"] ].

Definition site_info_keys : gset string :=
  {[ "name"; "description"; "url" ]}.

(** A dict restricted to a set of keys. *)
Definition restrict (keys : gset string) (d : gmap string json) : gmap string json :=
  filter (fun kv => kv.1 ∈ keys) d.

(** ** The seven tools as one family *)

Inductive tool_call : Type :=
  | CallWordpressInfo
  | CallList (t : list_tool)
  | CallPostById (post_id : Z)
  | CallPageById (page_id : Z).

Definition run_tool (host : Host) (c : tool_call) : IO json :=
  match c with
  | CallWordpressInfo => fetch_wordpress_info_tool host
  | CallList t => run_list_tool host t
  | CallPostById post_id => fetch_post_by_id_tool host post_id
  | CallPageById page_id => fetch_page_by_id_tool host page_id
  end.

Definition tool_url (host : Host) (c : tool_call) : string :=
  match c with
  | CallWordpressInfo => str_env (WORDPRESS_URL host) +:+ "/wp-json"
  | CallList t => list_tool_url host t
  | CallPostById post_id =>
      str_env (WORDPRESS_URL host) +:+ "/wp-json/wp/v2/posts/" +:+ str_int post_id
  | CallPageById page_id =>
      str_env (WORDPRESS_URL host) +:+ "/wp-json/wp/v2/pages/" +:+ str_int page_id
  end.

(** What the tool does with the decoded response. *)
Definition tool_shape (c : tool_call) : json -> result json :=
  match c with
  | CallWordpressInfo => format_site_info
  | CallList t => comprehension (list_tool_shape t)
  | CallPostById _ => format_post_response_data
  | CallPageById _ => format_post_response_data
  end.

(** The exception classes of the two stages of a tool call. *)
Definition is_fetch_class (c : exn_class) : bool :=
  match c with
  | ClsHTTPStatusError | ClsRequestError => true
  | _ => false
  end.

Definition is_shape_class (c : exn_class) : bool :=
  match c with
  | ClsKeyError | ClsTypeError => true
  | _ => false
  end.

(** ** A second test double, with a route for every tool *)

Definition site_info_fields : gmap string json :=
  <["name" := JString "My Site"]>
  (<["description" := JString "Just another site"]>
  (<["url" := JString "https://x"]>
  (<["gmt_offset" := JInt 0]> ∅))).

Definition site_info_text : string :=
  object_text
    [ ("name", quoted "My Site");
      ("description", quoted "Just another site");
      ("url", quoted "https://x");
      ("gmt_offset", "0") ].

Definition news_with_slug : gmap string json := <["slug" := JString "news"]> news_category.

Definition news_with_slug_body : string :=
  array_text
    [ object_text
        [ ("id", "1"); ("name", quoted "News"); ("count", "5");
          ("link", quoted "https://x/cat/news"); ("slug", quoted "news") ] ].

Definition full_routes : gmap string reply :=
  list_to_map
    [ (mock_base +:+ "/wp-json", Reply 200 site_info_text);
      (mock_base +:+ "/wp-json/wp/v2/categories", Reply 200 news_with_slug_body);
      (mock_base +:+ "/wp-json/wp/v2/posts?page=1&per_page=2", Reply 200 "[]");
      (mock_base +:+ "/wp-json/wp/v2/posts?categories=3&page=1", Reply 200 news_text);
      (mock_base +:+ "/wp-json/wp/v2/posts?categories=7&page=1", Reply 200 two_posts_body);
      (mock_base +:+ "/wp-json/wp/v2/pages?page=1&per_page=2", Reply 200 two_posts_body);
      (mock_base +:+ "/wp-json/wp/v2/posts/10", Reply 200 (post_text 10 "First" "<p>one</p>"));
      (mock_base +:+ "/wp-json/wp/v2/posts/-5", Reply 404 "Not Found");
      (mock_base +:+ "/wp-json/wp/v2/pages/10", Reply 200 two_posts_body);
      (mock_base +:+ "/wp-json/wp/v2/pages/1", Reply 200 not_json_body) ].

Definition full_server (w : list Request) (rq : Request) : reply :=
  match full_routes !! url rq with
  | Some r => r
  | None => NoReply "connection refused"
  end.

Definition full_decoder : gmap string json :=
  list_to_map
    [ (site_info_text, JObject site_info_fields);
      (news_with_slug_body, JArray [JObject news_with_slug]);
      ("[]", JArray []);
      (news_text, JObject news_category);
      (two_posts_body, JArray two_posts);
      (post_text 10 "First" "<p>one</p>", sample_post 10 "First" "<p>one</p>") ].

Definition full_host : Host :=
  mkHost (Some mock_base) full_server (fun body => full_decoder !! body)
         mock_status_message.

(** The summary of [sample_post]. *)
Definition sample_summary (i : Z) (title content : string) : json :=
  JObject (<["id" := JInt i]>
          (<["date" := JString "2024-01-01T00:00:00"]>
          (<["link" := JString "https://x/p"]>
          (<["title" := JString title]>
          (<["content" := JString content]>
          (<["featured_media" := JInt 0]> ∅)))))).

(** A site that reports its name and nothing else. *)
Definition name_only_fields : gmap string json := {[ "name" := JString "My Site" ]}.

Definition name_only_text : string := object_text [("name", quoted "My Site")].

Definition name_only_host : Host :=
  mkHost (Some mock_base)
         (fun _ rq =>
            if String.eqb (url rq) (mock_base +:+ "/wp-json")
            then Reply 200 name_only_text
            else NoReply "connection refused")
         (fun body =>
            if String.eqb body name_only_text then Some (JObject name_only_fields)
            else None)
         mock_status_message.
(** ** Lemmas on the shaper *)

Lemma has_paths_post_inv (v : json) :
  has_paths post_paths v ->
  exists o t c i d l tr cr fm,
    v = JObject o /\
    o !! "id" = Some i /\ o !! "date" = Some d /\ o !! "link" = Some l /\
    o !! "title" = Some (JObject t) /\ t !! "rendered" = Some tr /\
    o !! "content" = Some (JObject c) /\ c !! "rendered" = Some cr /\
    o !! "featured_media" = Some fm.
Proof.
  unfold has_paths, post_paths. intros H.
  rewrite !Forall_cons in H.
  destruct H as ([x1 H1] & [x2 H2] & [x3 H3] & [x4 H4] & [x5 H5] & [x6 H6] & _).
  destruct v as [|?|?|?|?|?|o]; try discriminate.
  simpl in *.
  destruct (o !! "id") as [i|] eqn:Ei; try discriminate.
  destruct (o !! "date") as [d|] eqn:Ed; try discriminate.
  destruct (o !! "link") as [l|] eqn:El; try discriminate.
  destruct (o !! "title") as [[|?|?|?|?|?|t]|] eqn:Et; try discriminate.
  destruct (t !! "rendered") as [tr|] eqn:Etr; try discriminate.
  destruct (o !! "content") as [[|?|?|?|?|?|c]|] eqn:Ec; try discriminate.
  destruct (c !! "rendered") as [cr|] eqn:Ecr; try discriminate.
  destruct (o !! "featured_media") as [fm|] eqn:Ef; try discriminate.
  exists o, t, c, i, d, l, tr, cr, fm. done.
Qed.

Lemma format_post_ok (o t c : gmap string json) (i d l tr cr fm : json) :
  o !! "id" = Some i -> o !! "date" = Some d -> o !! "link" = Some l ->
  o !! "title" = Some (JObject t) -> t !! "rendered" = Some tr ->
  o !! "content" = Some (JObject c) -> c !! "rendered" = Some cr ->
  o !! "featured_media" = Some fm ->
  format_post_response_data (JObject o) =
    Ok (JObject (<["featured_media" := fm]> (<["content" := cr]>
                (<["title" := tr]> (<["link" := l]>
                (<["date" := d]> (<["id" := i]> ∅))))))).
Proof.
  intros Hi Hd Hl Ht Htr Hc Hcr Hf.
  unfold format_post_response_data, getitem; simpl.
  rewrite Hi; simpl. rewrite Hd; simpl. rewrite Hl; simpl.
  rewrite Ht; simpl. rewrite Htr; simpl.
  rewrite Hc; simpl. rewrite Hcr; simpl.
  rewrite Hf; simpl. reflexivity.
Qed.

Lemma post_dict_dom (i d l tr cr fm : json) :
  dom (<["featured_media" := fm]> (<["content" := cr]>
      (<["title" := tr]> (<["link" := l]>
      (<["date" := d]> (<["id" := i]> (∅ : gmap string json))))))) = post_keys.
Proof. rewrite !dom_insert_L, dom_empty_L. unfold post_keys. set_solver. Qed.

Lemma format_post_summary (p : json) :
  has_paths post_paths p ->
  exists s, format_post_response_data p = Ok s /\ summary_of p s.
Proof.
  intros H. destruct (has_paths_post_inv p H)
    as (o & t & c & i & d & l & tr & cr & fm & -> & Hi & Hd & Hl & Ht & Htr & Hc & Hcr & Hf).
  eexists. split; [eapply format_post_ok; eassumption|].
  eexists. split; [reflexivity|]. split; [apply post_dict_dom|].
  simpl. rewrite Hi, Hd, Hl, Ht, Htr, Hc, Hcr, Hf.
  repeat split; by simplify_map_eq.
Qed.

(** Closing the side conditions of a failed lookup. *)
Ltac close_lookup := repeat split; first [done | eassumption | set_solver].

Lemma format_post_raises (o : gmap string json) :
  misses_path post_paths (JObject o) ->
  exists e, format_post_response_data (JObject o) = Raise e /\
    ((exists k, k ∈ post_keys /\ o !! k = None /\ e = KeyError k) \/
     (exists k d, k ∈ ["title"; "content"] /\ o !! k = Some (JObject d) /\
        d !! "rendered" = None /\ e = KeyError "rendered") \/
     (exists k x, k ∈ ["title"; "content"] /\ o !! k = Some x /\
        type_of x <> Dict /\ e = TypeError (BadSubscript (type_of x)))).
Proof.
  intros Hmiss. unfold format_post_response_data, getitem; simpl.
  destruct (o !! "id") as [i|] eqn:Ei; simpl;
    [|eexists; split; [reflexivity|left; exists "id"; close_lookup]].
  destruct (o !! "date") as [d|] eqn:Ed; simpl;
    [|eexists; split; [reflexivity|left; exists "date"; close_lookup]].
  destruct (o !! "link") as [l|] eqn:El; simpl;
    [|eexists; split; [reflexivity|left; exists "link"; close_lookup]].
  destruct (o !! "title") as [t|] eqn:Et; simpl;
    [|eexists; split; [reflexivity|left; exists "title"; close_lookup]].
  destruct t as [|?|?|?|?|?|t]; simpl;
    try (eexists; split; [reflexivity|right; right; exists "title"; eexists;
         close_lookup]).
  destruct (t !! "rendered") as [tr|] eqn:Etr; simpl;
    [|eexists; split; [reflexivity|right; left; exists "title", t; close_lookup]].
  destruct (o !! "content") as [c|] eqn:Ec; simpl;
    [|eexists; split; [reflexivity|left; exists "content"; close_lookup]].
  destruct c as [|?|?|?|?|?|c]; simpl;
    try (eexists; split; [reflexivity|right; right; exists "content"; eexists;
         close_lookup]).
  destruct (c !! "rendered") as [cr|] eqn:Ecr; simpl;
    [|eexists; split; [reflexivity|right; left; exists "content", c; close_lookup]].
  destruct (o !! "featured_media") as [fm|] eqn:Ef; simpl;
    [|eexists; split; [reflexivity|left; exists "featured_media"; close_lookup]].
  exfalso. unfold misses_path, post_paths in Hmiss.
  rewrite !Exists_cons, Exists_nil in Hmiss. simpl in Hmiss.
  rewrite Ei, Ed, El, Et, Etr, Ec, Ecr, Ef in Hmiss.
  repeat (destruct Hmiss as [Hmiss|Hmiss]; [discriminate|]). exact Hmiss.
Qed.

Lemma format_category_raises (o : gmap string json) :
  misses_path category_paths (JObject o) ->
  exists k, k ∈ category_keys /\ o !! k = None /\
    format_category (JObject o) = Raise (KeyError k).
Proof.
  intros Hmiss. unfold format_category, getitem; simpl.
  destruct (o !! "id") as [i|] eqn:Ei; simpl; [|exists "id"; close_lookup].
  destruct (o !! "name") as [n|] eqn:En; simpl; [|exists "name"; close_lookup].
  destruct (o !! "count") as [c|] eqn:Ec; simpl; [|exists "count"; close_lookup].
  destruct (o !! "link") as [l|] eqn:El; simpl; [|exists "link"; close_lookup].
  exfalso. unfold misses_path, category_paths in Hmiss.
  rewrite !Exists_cons, Exists_nil in Hmiss. simpl in Hmiss.
  rewrite Ei, En, Ec, El in Hmiss.
  repeat (destruct Hmiss as [Hmiss|Hmiss]; [discriminate|]). exact Hmiss.
Qed.

Lemma format_category_id (c : gmap string json) :
  dom c = category_keys -> format_category (JObject c) = Ok (JObject c).
Proof.
  intros Hdom.
  assert (Hin : forall k, k ∈ category_keys -> is_Some (c !! k)).
  { intros k Hk. apply elem_of_dom. by rewrite Hdom. }
  destruct (Hin "id") as [i Hi]; [set_solver|].
  destruct (Hin "name") as [n Hn]; [set_solver|].
  destruct (Hin "count") as [ct Hc]; [set_solver|].
  destruct (Hin "link") as [l Hl]; [set_solver|].
  unfold format_category, getitem; simpl.
  rewrite Hi; simpl. rewrite Hn; simpl. rewrite Hc; simpl. rewrite Hl; simpl.
  do 2 f_equal. apply map_eq. intros k.
  destruct (decide (k ∈ category_keys)) as [Hk|Hk].
  - unfold category_keys in Hk.
    rewrite !elem_of_union, !elem_of_singleton in Hk.
    destruct Hk as [[[->| ->]| ->]| ->]; by simplify_map_eq.
  - assert (c !! k = None) as ->.
    { apply not_elem_of_dom. by rewrite Hdom. }
    unfold category_keys in Hk.
    rewrite !not_elem_of_union, !not_elem_of_singleton in Hk.
    destruct Hk as [[[? ?] ?] ?]. by simplify_map_eq.
Qed.

(** ** Lemmas on comprehensions *)

Lemma mapM_result_ok (f : json -> result json) (l k : list json) :
  Forall2 (fun x y => f x = Ok y) l k -> mapM f l = Ok k.
Proof.
  induction 1 as [|x y l k Hxy _ IH]; simpl; [reflexivity|].
  rewrite Hxy; simpl. rewrite IH; simpl. reflexivity.
Qed.

Lemma mapM_result_id (f : json -> result json) (l : list json) :
  Forall (fun x => f x = Ok x) l -> mapM f l = Ok l.
Proof.
  intros H. apply mapM_result_ok.
  induction H; constructor; auto.
Qed.

(** The comprehension stops at the first element that raises: everything
    before it was shaped, and its exception is the outcome. *)
Lemma mapM_result_raise (f : json -> result json) (l : list json) :
  Exists (fun x => returns (f x) = false) l ->
  exists pre x post e,
    l = pre ++ x :: post /\
    Forall (fun y => returns (f y) = true) pre /\
    f x = Raise e /\ mapM f l = Raise e.
Proof.
  induction l as [|a l IH]; intros H.
  - inversion H.
  - destruct (f a) as [b|e] eqn:Ea.
    + assert (Hl : Exists (fun x => returns (f x) = false) l).
      { inversion H as [? ? Hhd|]; subst; [|assumption].
        rewrite Ea in Hhd. discriminate. }
      destruct (IH Hl) as (pre & x & post & e & -> & Hpre & Hx & Hm).
      exists (a :: pre), x, post, e. repeat split; try assumption.
      * constructor; [by rewrite Ea|assumption].
      * simpl. rewrite Ea; simpl. rewrite Hm. reflexivity.
    + exists [], a, l, e. repeat split; try assumption; [constructor|].
      simpl. rewrite Ea. reflexivity.
Qed.

Lemma comprehension_ok (f : json -> result json) (l k : list json) :
  Forall2 (fun x y => f x = Ok y) l k ->
  comprehension f (JArray l) = Ok (JArray k).
Proof.
  intros H. unfold comprehension; simpl.
  rewrite (mapM_result_ok f l k H). reflexivity.
Qed.

Lemma comprehension_raise (f : json -> result json) (l : list json) :
  Exists (fun x => returns (f x) = false) l ->
  exists e, comprehension f (JArray l) = Raise e /\
    Exists (fun x => f x = Raise e) l.
Proof.
  intros H. destruct (mapM_result_raise f l H) as (pre & x & post & e & -> & _ & Hx & Hm).
  exists e. split.
  - unfold comprehension; simpl. rewrite Hm. reflexivity.
  - apply Exists_app. right. by constructor.
Qed.

(** ** Lemmas on the fetcher *)

Section HostFacts.

Context (host : Host).

Lemma is_success_range (r : Response) :
  is_success r = true <-> (200 <= status_code r <= 299)%Z.
Proof. unfold is_success. rewrite andb_true_iff, !Z.leb_le. tauto. Qed.

Lemma fetch_sends_one_request (u : string) (w : World) :
  (fetch_post_response_data host u w).2 = w ++ [get_request u].
Proof.
  unfold fetch_post_response_data, mbind, IO_bind, client_get, get_request, lift.
  destruct (server host w _) as [status body|reason]; simpl; [|reflexivity].
  destruct (raise_for_status host _); simpl; [|reflexivity].
  destruct (json_loads host body); reflexivity.
Qed.

Lemma fetch_ok (u : string) (w : World) (v : json) :
  serves host w u v ->
  fetch_post_response_data host u w = (Ok v, w ++ [get_request u]).
Proof.
  intros (status & body & Hs & Hr & Hj).
  unfold fetch_post_response_data, mbind, IO_bind, client_get, lift.
  fold (get_request u). rewrite Hs; simpl.
  unfold raise_for_status.
  rewrite (proj2 (is_success_range _)) by exact Hr. simpl.
  rewrite Hj. reflexivity.
Qed.

Lemma fetch_invalid_json (u : string) (w : World) (status : Z) (body : string) :
  server host w (get_request u) = Reply status body ->
  (200 <= status <= 299)%Z ->
  json_loads host body = None ->
  fetch_post_response_data host u w =
    (Raise (HTTPStatusError ("Invalid JSON response from " +:+ u +:+ ": " +:+ body)
              (get_request u) (mkResponse status body (get_request u))),
     w ++ [get_request u]).
Proof.
  intros Hs Hr Hj.
  unfold fetch_post_response_data, mbind, IO_bind, client_get, lift.
  fold (get_request u). rewrite Hs; simpl.
  unfold raise_for_status.
  rewrite (proj2 (is_success_range _)) by exact Hr. simpl.
  rewrite Hj. reflexivity.
Qed.

Lemma fetch_bad_status (u : string) (w : World) (status : Z) (body : string) :
  server host w (get_request u) = Reply status body ->
  ~ (200 <= status <= 299)%Z ->
  fetch_post_response_data host u w =
    (Raise (HTTPStatusError (status_message host (mkResponse status body (get_request u)))
              (get_request u) (mkResponse status body (get_request u))),
     w ++ [get_request u]).
Proof.
  intros Hs Hr.
  unfold fetch_post_response_data, mbind, IO_bind, client_get, lift.
  fold (get_request u). rewrite Hs; simpl.
  unfold raise_for_status.
  destruct (is_success _) eqn:E; [|reflexivity].
  apply is_success_range in E. simpl in E. contradiction.
Qed.

Lemma fetch_no_reply (u : string) (w : World) (reason : string) :
  server host w (get_request u) = NoReply reason ->
  fetch_post_response_data host u w = (Raise (RequestError reason), w ++ [get_request u]).
Proof.
  intros Hs.
  unfold fetch_post_response_data, mbind, IO_bind, client_get, lift.
  fold (get_request u). rewrite Hs; reflexivity.
Qed.

(** Every list tool is one fetch followed by one comprehension. *)
Lemma run_list_tool_unfold (t : list_tool) :
  run_list_tool host t =
    (response_data ← fetch_post_response_data host (list_tool_url host t);
     lift (comprehension (list_tool_shape t) response_data)).
Proof. destruct t; reflexivity. Qed.

Lemma run_list_tool_served (t : list_tool) (w : World) (v : json) :
  serves host w (list_tool_url host t) v ->
  run_list_tool host t w =
    (comprehension (list_tool_shape t) v, w ++ [get_request (list_tool_url host t)]).
Proof.
  intros H. rewrite run_list_tool_unfold.
  unfold mbind, IO_bind. rewrite (fetch_ok _ _ _ H). reflexivity.
Qed.

Lemma run_list_tool_sends_one_request (t : list_tool) (w : World) :
  (run_list_tool host t w).2 = w ++ [get_request (list_tool_url host t)].
Proof.
  rewrite run_list_tool_unfold. unfold mbind, IO_bind.
  pose proof (fetch_sends_one_request (list_tool_url host t) w) as H.
  destruct (fetch_post_response_data host _ w) as [[v|e] w']; simpl in *; subst; reflexivity.
Qed.

End HostFacts.

(** ** The fetcher *)

Section Fetcher.

Context (host : Host).

(** C4.  A response whose status is outside 200..299 makes
    [fetch_post_response_data] raise [HTTPStatusError]; the exception
    carries the response with that status and the request that was sent;
    no value is returned, and the one request is the only one sent. *)
Theorem fetch_bad_status_raises (u : string) (w : World) (status : Z) (body : string) :
  server host w (get_request u) = Reply status body ->
  ~ (200 <= status <= 299)%Z ->
  exists msg resp,
    fetch_post_response_data host u w =
      (Raise (HTTPStatusError msg (get_request u) resp), w ++ [get_request u]) /\
    status_code resp = status /\ text resp = body /\
    request resp = get_request u /\ url (request resp) = u.
Proof.
  intros Hs Hr. eexists _, _. split.
  - apply fetch_bad_status; eassumption.
  - repeat split.
Qed.

Lemma string_app_cons (c : Ascii.ascii) (a b : string) :
  String c a +:+ b = String c (a +:+ b).
Proof. reflexivity. Qed.

Lemma string_app_nil_r (a : string) : a +:+ EmptyString = a.
Proof. induction a as [|x a IH]; [reflexivity|]. by rewrite string_app_cons, IH. Qed.

Lemma string_app_assoc (a b c : string) : (a +:+ b) +:+ c = a +:+ b +:+ c.
Proof. induction a as [|x a IH]; [reflexivity|]. by rewrite !string_app_cons, IH. Qed.

Lemma occurs_in_middle (pre needle post : string) :
  occurs_in needle (pre +:+ needle +:+ post).
Proof. exists pre, post. reflexivity. Qed.

Lemma occurs_in_end (pre needle : string) :
  occurs_in needle (pre +:+ needle).
Proof. exists pre, EmptyString. by rewrite string_app_nil_r. Qed.

(** C1, as the code has it.  A 2xx response whose body does not decode
    makes [fetch_post_response_data] raise an exception whose message is
    [Invalid JSON response from <url>: <body>], so it contains the URL and
    the raw body; its class is [HTTPStatusError], the class of the
    exception raised for a status outside 2xx. *)
Theorem fetch_invalid_json_raises (u : string) (w : World) (status : Z) (body : string) :
  server host w (get_request u) = Reply status body ->
  (200 <= status <= 299)%Z ->
  json_loads host body = None ->
  exists e,
    fetch_post_response_data host u w = (Raise e, w ++ [get_request u]) /\
    message_of e = Some ("Invalid JSON response from " +:+ u +:+ ": " +:+ body) /\
    (forall msg, message_of e = Some msg -> occurs_in u msg /\ occurs_in body msg) /\
    class_of e = ClsHTTPStatusError /\
    (forall u' w' status' body',
       server host w' (get_request u') = Reply status' body' ->
       ~ (200 <= status' <= 299)%Z ->
       exists e', (fetch_post_response_data host u' w').1 = Raise e' /\
                  class_of e' = class_of e).
Proof.
  intros Hs Hr Hj. eexists. split; [apply fetch_invalid_json; eassumption|].
  simpl. split; [reflexivity|]. split; [|split; [reflexivity|]].
  - intros msg [= <-]. split.
    + apply occurs_in_middle.
    + rewrite <- !string_app_assoc. apply occurs_in_end.
  - intros u' w' status' body' Hs' Hr'.
    rewrite (fetch_bad_status host u' w' status' body' Hs' Hr').
    eexists. split; reflexivity.
Qed.

(** C9.  The exception raised for an undecodable body carries the
    response itself, whose status is in 200..299, whereas the exception of
    a status failure carries a response whose status is not; both have the
    class [HTTPStatusError], and [is_success] of the attached response
    tells them apart. *)
Theorem invalid_json_error_has_success_response
    (u : string) (w : World) (status : Z) (body : string) :
  server host w (get_request u) = Reply status body ->
  (200 <= status <= 299)%Z ->
  json_loads host body = None ->
  exists e resp,
    (fetch_post_response_data host u w).1 = Raise e /\
    response_of e = Some resp /\
    status_code resp = status /\ text resp = body /\
    is_success resp = true /\
    (forall u' w' status' body',
       server host w' (get_request u') = Reply status' body' ->
       ~ (200 <= status' <= 299)%Z ->
       exists e' resp',
         (fetch_post_response_data host u' w').1 = Raise e' /\
         class_of e' = class_of e /\
         response_of e' = Some resp' /\
         status_code resp' = status' /\
         is_success resp' = false).
Proof.
  intros Hs Hr Hj.
  rewrite (fetch_invalid_json host u w status body Hs Hr Hj).
  eexists _, _. split; [reflexivity|]. split; [reflexivity|].
  split; [reflexivity|]. split; [reflexivity|].
  split; [by apply is_success_range|].
  intros u' w' status' body' Hs' Hr'.
  rewrite (fetch_bad_status host u' w' status' body' Hs' Hr').
  eexists _, _. split; [reflexivity|]. split; [reflexivity|].
  split; [reflexivity|]. split; [reflexivity|].
  destruct (is_success _) eqn:E; [|reflexivity].
  apply is_success_range in E. simpl in E. contradiction.
Qed.

End Fetcher.

(** ** The shaper *)

(** C2.  On an object that has [id], [date], [link], [featured_media],
    [title.rendered] and [content.rendered], the shaper returns an object
    with exactly the six keys [id], [date], [link], [title], [content],
    [featured_media]; each holds the very value found in the input
    ([title] the one under [title.rendered], [content] the one under
    [content.rendered]). *)
Theorem format_post_exactly_six_fields
    (o t c : gmap string json) (i d l tr cr fm : json) :
  o !! "id" = Some i -> o !! "date" = Some d -> o !! "link" = Some l ->
  o !! "title" = Some (JObject t) -> t !! "rendered" = Some tr ->
  o !! "content" = Some (JObject c) -> c !! "rendered" = Some cr ->
  o !! "featured_media" = Some fm ->
  exists m,
    format_post_response_data (JObject o) = Ok (JObject m) /\
    dom m = post_keys /\
    m !! "id" = Some i /\ m !! "date" = Some d /\ m !! "link" = Some l /\
    m !! "title" = Some tr /\ m !! "content" = Some cr /\
    m !! "featured_media" = Some fm.
Proof.
  intros Hi Hd Hl Ht Htr Hc Hcr Hf. eexists. split.
  - eapply format_post_ok; eassumption.
  - split; [apply post_dict_dom|]. repeat split; by simplify_map_eq.
Qed.

(** C3, as the code has it.  An object that lacks a required key never
    shapes: the call raises and returns no object, partial or defaulted.
    For a category the exception is [KeyError] naming a missing key.  For
    a post it is [KeyError] naming a missing top-level key, or
    [KeyError('rendered')] when [title] or [content] is an object without
    that key; when [title] or [content] is present but is not an object,
    it is a [TypeError], which names no key. *)
Theorem missing_key_raises (o : gmap string json) :
  (misses_path post_paths (JObject o) ->
   exists e, format_post_response_data (JObject o) = Raise e /\
     ((exists k, k ∈ post_keys /\ o !! k = None /\ e = KeyError k) \/
      (exists k d, k ∈ ["title"; "content"] /\ o !! k = Some (JObject d) /\
         d !! "rendered" = None /\ e = KeyError "rendered") \/
      (exists k x, k ∈ ["title"; "content"] /\ o !! k = Some x /\
         type_of x <> Dict /\ e = TypeError (BadSubscript (type_of x))))) /\
  (misses_path category_paths (JObject o) ->
   exists k, k ∈ category_keys /\ o !! k = None /\
     format_category (JObject o) = Raise (KeyError k)).
Proof.
  split; [apply format_post_raises | apply format_category_raises].
Qed.

(** C3 fails as stated: a post whose [title] is a string lacks
    [title.rendered], and the shaper raises a [TypeError] that names no
    key. *)
Lemma string_title_raises_type_error :
  misses_path post_paths post_with_string_title /\
  format_post_response_data post_with_string_title = Raise (TypeError (BadSubscript Str)) /\
  ~ (exists k, format_post_response_data post_with_string_title = Raise (KeyError k)).
Proof.
  split; [|split].
  - unfold misses_path, post_paths. do 3 apply Exists_cons_tl.
    apply Exists_cons_hd. vm_compute. reflexivity.
  - vm_compute. reflexivity.
  - intros [k Hk]. vm_compute in Hk. discriminate.
Qed.

(** ** Lemmas on the URL handling of httpx *)

















(** ** The tools *)

Section ToolFacts.

Context (host : Host).

(** C5.  When the response of a list tool decodes to a list and one of
    its elements fails to shape, the tool call raises: it returns no list,
    and the exception is the one of a failing element. *)
Theorem list_tool_fails_whole (t : list_tool) (w : World) (items : list json) :
  serves host w (list_tool_url host t) (JArray items) ->
  Exists (fun x => returns (list_tool_shape t x) = false) items ->
  exists e,
    run_list_tool host t w = (Raise e, w ++ [get_request (list_tool_url host t)]) /\
    Exists (fun x => list_tool_shape t x = Raise e) items.
Proof.
  intros Hs Hbad. rewrite (run_list_tool_served host t w _ Hs).
  destruct (comprehension_raise _ _ Hbad) as (e & He & Hex).
  exists e. by rewrite He.
Qed.

(** C6.  [fetch_posts] sends one GET to
    [{base}/wp-json/wp/v2/posts?page={page}&per_page={per_page}], where an
    omitted [page] is 1 and an omitted [per_page] is 2; when the response
    decodes to a list of posts that have the six key paths, the tool
    returns the list of their summaries, one per post and in the same
    order. *)
Theorem fetch_posts_tool_spec (page per_page : option Z) (w : World) :
  let u := str_env (WORDPRESS_URL host) +:+ "/wp-json/wp/v2/posts?page="
             +:+ str_int (default 1%Z page) +:+ "&per_page="
             +:+ str_int (default 2%Z per_page) in
  (fetch_posts_tool host page per_page w).2 = w ++ [get_request u] /\
  (page = None -> per_page = None ->
   u = str_env (WORDPRESS_URL host) +:+ "/wp-json/wp/v2/posts?page=1&per_page=2") /\
  (forall posts,
     serves host w u (JArray posts) ->
     Forall (has_paths post_paths) posts ->
     exists out,
       fetch_posts_tool host page per_page w = (Ok (JArray out), w ++ [get_request u]) /\
       length out = length posts /\
       Forall2 summary_of posts out).
Proof.
  intros u. split; [|split].
  - apply (run_list_tool_sends_one_request host (FetchPosts page per_page)).
  - intros -> ->. reflexivity.
  - intros posts Hs Hposts.
    assert (Hout : exists out, Forall2 (fun x y => format_post_response_data x = Ok y) posts out
                            /\ Forall2 summary_of posts out).
    { clear Hs. induction Hposts as [|p posts Hp _ (out & H1 & H2)].
      - exists []. split; constructor.
      - destruct (format_post_summary p Hp) as (s & Hs1 & Hs2).
        exists (s :: out). split; constructor; assumption. }
    destruct Hout as (out & H1 & H2). exists out.
    split; [|split; [symmetry; eapply Forall2_length; eassumption | assumption]].
    etrans; [exact (run_list_tool_served host (FetchPosts page per_page) w _ Hs)|].
    simpl. by rewrite (comprehension_ok _ _ _ H1).
Qed.

(** C7.  On category objects that have exactly the keys [id], [name],
    [count], [link], the category shape is the identity, and
    [fetch_categories] returns the decoded list unchanged. *)
Theorem fetch_categories_identity (cats : list (gmap string json)) (w : World) :
  Forall (fun c => dom c = category_keys) cats ->
  serves host w (str_env (WORDPRESS_URL host) +:+ "/wp-json/wp/v2/categories")
         (JArray (JObject <$> cats)) ->
  Forall (fun c => format_category (JObject c) = Ok (JObject c)) cats /\
  fetch_categories_tool host w =
    (Ok (JArray (JObject <$> cats)),
     w ++ [get_request (str_env (WORDPRESS_URL host) +:+ "/wp-json/wp/v2/categories")]).
Proof.
  intros Hdom Hs.
  assert (Hid : Forall (fun c => format_category (JObject c) = Ok (JObject c)) cats).
  { eapply Forall_impl; [exact Hdom|]. intros c. apply format_category_id. }
  split; [exact Hid|].
  etrans; [exact (run_list_tool_served host FetchCategories w _ Hs)|]. simpl.
  unfold comprehension; simpl. rewrite mapM_result_id; [reflexivity|].
  apply Forall_fmap. exact Hid.
Qed.


End ToolFacts.

(** ** The shaper over the store *)

Lemma heap_getitem_frame (v : Heap.val) (k : string) (h h' : Heap.heap) (r : result Heap.val) :
  Heap.getitem v k h = Some (r, h') -> h' = h.
Proof.
  unfold Heap.getitem. intros H.
  destruct v as [| | | | |l]; try (by inversion H).
  destruct (h !! l) as [[d|xs]|]; try (by inversion H).
  destruct (d !! k); by inversion H.
Qed.

Lemma heap_getitem_total (v : Heap.val) (k : string) (h : Heap.heap) :
  Heap.wf_val h v -> exists r, Heap.getitem v k h = Some (r, h).
Proof.
  unfold Heap.getitem. intros Hwf.
  destruct v as [| | | | |l]; try (eexists; reflexivity).
  destruct Hwf as [[d|xs] ->]; [|eexists; reflexivity].
  destruct (d !! k); eexists; reflexivity.
Qed.

Lemma heap_getitem_wf (v x : Heap.val) (k : string) (h : Heap.heap) :
  Heap.wf_heap h -> Heap.getitem v k h = Some (Ok x, h) -> Heap.wf_val h x.
Proof.
  unfold Heap.getitem. intros Hh H.
  destruct v as [| | | | |l]; try discriminate.
  destruct (h !! l) as [[d|xs]|] eqn:El; try discriminate.
  destruct (d !! k) as [y|] eqn:Ek; inversion H; subst.
  apply (Hh l (Heap.ODict d) El k x Ek).
Qed.

(** One subscription inside a larger computation: it either raises and
    ends the computation with the store as it was, or yields a value that
    is not dangling and continues on the same store. *)
Lemma heap_getitem_step (v : Heap.val) (k : string) (h : Heap.heap) :
  Heap.wf_heap h -> Heap.wf_val h v ->
  (exists e, Heap.getitem v k h = Some (Raise e, h)) \/
  (exists x, Heap.getitem v k h = Some (Ok x, h) /\ Heap.wf_val h x).
Proof.
  intros Hh Hv. destruct (heap_getitem_total v k h Hv) as [[x|e] Hr].
  - right. exists x. split; [exact Hr|]. eapply heap_getitem_wf; eassumption.
  - left. by exists e.
Qed.

Lemma heap_format_outcome (response : Heap.val) (h : Heap.heap) :
  Heap.wf_heap h -> Heap.wf_val h response ->
  (exists e, Heap.format_post_response_data response h = Some (Raise e, h)) \/
  (exists d, dom d = post_keys /\
     Heap.format_post_response_data response h =
       Some (Ok (Heap.VRef (fresh (dom h))), <[fresh (dom h) := Heap.ODict d]> h)).
Proof.
  intros Hh Hv. unfold Heap.format_post_response_data, mbind, Heap.HM_bind.
  destruct (heap_getitem_step response "id" h Hh Hv) as [[e ->]|(i & -> & _)];
    [left; by exists e|].
  destruct (heap_getitem_step response "date" h Hh Hv) as [[e ->]|(d & -> & _)];
    [left; by exists e|].
  destruct (heap_getitem_step response "link" h Hh Hv) as [[e ->]|(l & -> & _)];
    [left; by exists e|].
  destruct (heap_getitem_step response "title" h Hh Hv) as [[e ->]|(t & -> & Ht)];
    [left; by exists e|].
  destruct (heap_getitem_step t "rendered" h Hh Ht) as [[e ->]|(tr & -> & _)];
    [left; by exists e|].
  destruct (heap_getitem_step response "content" h Hh Hv) as [[e ->]|(c & -> & Hc)];
    [left; by exists e|].
  destruct (heap_getitem_step c "rendered" h Hh Hc) as [[e ->]|(cr & -> & _)];
    [left; by exists e|].
  destruct (heap_getitem_step response "featured_media" h Hh Hv) as [[e ->]|(fm & -> & _)];
    [left; by exists e|].
  right. eexists. split; [|reflexivity].
  rewrite !dom_insert_L, dom_empty_L. unfold post_keys. set_solver.
Qed.

Lemma heap_traverse_ext (f g : Heap.val -> option json) (d : gmap string Heap.val)
    (m : gmap string json) :
  (forall k x j, d !! k = Some x -> f x = Some j -> g x = Some j) ->
  Heap.traverse f d = Some m -> Heap.traverse g d = Some m.
Proof.
  intros Hfg. unfold Heap.traverse.
  destruct (decide (map_Forall _ d)) as [Hf|]; [|discriminate].
  intros [= <-].
  assert (Hg : map_Forall (fun _ x => is_Some (g x)) d).
  { intros k x Hk. destruct (Hf k x Hk) as [j Hj]. exists j. eauto. }
  rewrite decide_True by exact Hg. f_equal.
  apply map_eq. intros k. rewrite !lookup_omap.
  destruct (d !! k) as [x|] eqn:Ek; [simpl|reflexivity].
  destruct (Hf k x Ek) as [j Hj]. rewrite Hj. eauto.
Qed.

(** What a reference stands for does not change when the store grows or
    when it is read to a greater depth. *)
Lemma heap_reify_mono (n n' : nat) (h h' : gmap positive Heap.obj) (v : Heap.val) (j : json) :
  h ⊆ h' -> n <= n' -> Heap.reify n h v = Some j -> Heap.reify n' h' v = Some j.
Proof.
  intros Hsub. revert n' v j. induction n as [|n IH]; intros n' v j Hle.
  - destruct v; destruct n'; simpl; auto; discriminate.
  - destruct n' as [|n']; [lia|].
    destruct v as [| | | | |l]; simpl; auto.
    destruct (h !! l) as [o|] eqn:El; [|discriminate].
    rewrite (lookup_weaken _ _ _ _ El Hsub).
    destruct o as [d|xs]; intros H.
    + destruct (Heap.traverse (Heap.reify n h) d) as [m|] eqn:Em; [|discriminate].
      rewrite (heap_traverse_ext (Heap.reify n h) (Heap.reify n' h') d m);
        [exact H| |exact Em].
      intros k x j' _. apply IH. lia.
    + destruct (mapM (Heap.reify n h) xs) as [ys|] eqn:Em; [|discriminate].
      assert (mapM (Heap.reify n' h') xs = Some ys) as ->; [|exact H].
      apply mapM_Some. apply mapM_Some in Em.
      eapply Forall2_impl; [exact Em|]. intros x y. apply IH. lia.
Qed.

(** A subscription on the store does what the subscription on the value
    it stands for does. *)
Lemma heap_getitem_refines (n : nat) (h : gmap positive Heap.obj) (v : Heap.val)
    (k : string) (j : json) :
  Heap.reify n h v = Some j ->
  (exists e, Heap.getitem v k h = Some (Raise e, h) /\ getitem j k = Raise e) \/
  (exists x jx, Heap.getitem v k h = Some (Ok x, h) /\ getitem j k = Ok jx /\
                Heap.reify (pred n) h x = Some jx).
Proof.
  intros H. destruct v as [| | | | |l].
  1-5: destruct n; simpl in H; inversion H; subst; left; eexists; split; reflexivity.
  destruct n as [|n]; [discriminate|]. simpl in H. unfold Heap.getitem.
  destruct (h !! l) as [[d|xs]|]; [| |discriminate].
  - unfold Heap.traverse in H.
    destruct (decide (map_Forall _ d)) as [Hall|]; [|discriminate].
    simpl in H. inversion H; subst; clear H. simpl. rewrite lookup_omap.
    destruct (d !! k) as [x|] eqn:Ek; simpl.
    + destruct (Hall k x Ek) as [jx Hjx]. rewrite Hjx.
      right. exists x, jx. done.
    + left. eexists; split; reflexivity.
  - destruct (mapM _ xs); [|discriminate]. inversion H; subst.
    left. eexists; split; reflexivity.
Qed.

(** The shaper over the store refines the shaper over values: on a
    reference that stands for [j] it raises what the shaper raises on [j],
    or returns a reference that stands for what the shaper returns on
    [j]. *)
Lemma heap_format_refines (n : nat) (h : gmap positive Heap.obj) (response : Heap.val)
    (j : json) :
  Heap.reify n h response = Some j ->
  exists r h',
    Heap.format_post_response_data response h = Some (r, h') /\
    match r with
    | Raise e => format_post_response_data j = Raise e
    | Ok v => exists s, format_post_response_data j = Ok s /\
                        Heap.reify n h' v = Some s
    end.
Proof.
  intros Hj. destruct n as [|n].
  { destruct response; simpl in Hj; inversion Hj; subst;
      eexists _, _; split; reflexivity. }
  unfold Heap.format_post_response_data, format_post_response_data,
    mbind, Heap.HM_bind, result_bind.
  destruct (heap_getitem_refines (S n) h response "id" j Hj)
    as [(e & -> & ->)|(i & ji & -> & -> & Hi)]; [by eexists _, _|].
  destruct (heap_getitem_refines (S n) h response "date" j Hj)
    as [(e & -> & ->)|(d & jd & -> & -> & Hd)]; [by eexists _, _|].
  destruct (heap_getitem_refines (S n) h response "link" j Hj)
    as [(e & -> & ->)|(l & jl & -> & -> & Hl)]; [by eexists _, _|].
  destruct (heap_getitem_refines (S n) h response "title" j Hj)
    as [(e & -> & ->)|(t & jt & -> & -> & Ht)]; [by eexists _, _|].
  destruct (heap_getitem_refines n h t "rendered" jt Ht)
    as [(e & -> & ->)|(tr & jtr & -> & -> & Htr)]; [by eexists _, _|].
  destruct (heap_getitem_refines (S n) h response "content" j Hj)
    as [(e & -> & ->)|(c & jc & -> & -> & Hc)]; [by eexists _, _|].
  destruct (heap_getitem_refines n h c "rendered" jc Hc)
    as [(e & -> & ->)|(cr & jcr & -> & -> & Hcr)]; [by eexists _, _|].
  destruct (heap_getitem_refines (S n) h response "featured_media" j Hj)
    as [(e & -> & ->)|(fm & jfm & -> & -> & Hfm)]; [by eexists _, _|].
  eexists _, _. split; [reflexivity|]. eexists. split; [reflexivity|].
  simpl pred in *.
  assert (Hsub : h ⊆ <[fresh (dom h) := Heap.ODict
                    (<["featured_media" := fm]> (<["content" := cr]>
                    (<["title" := tr]> (<["link" := l]>
                    (<["date" := d]> (<["id" := i]> ∅))))))]> h).
  { apply insert_subseteq, not_elem_of_dom, is_fresh. }
  set (h' := <[fresh (dom h) := _]> h) in *.
  assert (Hup : forall m x jx, m <= n -> Heap.reify m h x = Some jx ->
                               Heap.reify n h' x = Some jx).
  { intros m x jx Hm. by apply heap_reify_mono. }
  apply (Hup n) in Hi, Hd, Hl, Hfm; [|lia..].
  apply (Hup (pred n)) in Htr, Hcr; [|lia..].
  simpl. unfold h' at 1. rewrite lookup_insert_eq.
  unfold Heap.traverse. rewrite decide_True.
  - simpl. do 2 f_equal.
    rewrite !(omap_insert_Some _ _ _ _ _ Hfm).
    rewrite !(omap_insert_Some _ _ _ _ _ Hcr).
    rewrite !(omap_insert_Some _ _ _ _ _ Htr).
    rewrite !(omap_insert_Some _ _ _ _ _ Hl).
    rewrite !(omap_insert_Some _ _ _ _ _ Hd).
    rewrite !(omap_insert_Some _ _ _ _ _ Hi).
    by rewrite omap_empty.
  - repeat (apply map_Forall_insert_2; [by eexists|]).
    apply map_Forall_empty.
Qed.

(** C8.  Over a store without dangling references the shaper always
    ends; every object of the store, the argument and whatever it refers
    to included, is afterwards what it was before, so the argument stands
    for the same value; when the call returns, the result is a reference
    to a dict at a location that was unused before the call. *)
Theorem format_post_leaves_input (h : Heap.heap) (response : Heap.val) :
  Heap.wf_heap h -> Heap.wf_val h response ->
  exists r h',
    Heap.format_post_response_data response h = Some (r, h') /\
    (forall l o, h !! l = Some o -> h' !! l = Some o) /\
    (forall n j, Heap.reify n h response = Some j ->
                 Heap.reify n h' response = Some j) /\
    (forall e, r = Raise e -> h' = h) /\
    (forall v, r = Ok v ->
       exists l d, v = Heap.VRef l /\ h !! l = None /\
         h' !! l = Some (Heap.ODict d) /\ dom d = post_keys /\
         dom h' = {[l]} ∪ dom h).
Proof.
  intros Hh Hv.
  destruct (heap_format_outcome response h Hh Hv) as [[e ->]|(d & Hd & ->)].
  - eexists _, _. split; [reflexivity|]. repeat split; try done.
  - assert (Hfresh : h !! fresh (dom h) = None).
    { apply not_elem_of_dom. apply is_fresh. }
    assert (Hsub : h ⊆ <[fresh (dom h) := Heap.ODict d]> h).
    { by apply insert_subseteq. }
    eexists _, _. split; [reflexivity|]. split; [|split; [|split]].
    + intros l o Hl. eapply lookup_weaken; eassumption.
    + intros n j. by apply heap_reify_mono.
    + discriminate.
    + intros v [= <-]. exists (fresh (dom h)), d.
      split; [reflexivity|]. split; [exact Hfresh|].
      split; [by rewrite lookup_insert_eq|]. split; [exact Hd|].
      by rewrite dom_insert_L.
Qed.

(** ** The properties on the test double *)

(** C1 fails as stated: on the test double, the exception for a 200
    response with an undecodable body and the exception for a 404 have
    the same class. *)
Lemma invalid_json_same_class_as_404 :
  exists e1 e2,
    (fetch_post_response_data mock_host "https://x/wp-json/wp/v2/pages/1" []).1 = Raise e1 /\
    (fetch_post_response_data mock_host "https://x/wp-json/wp/v2/posts/999" []).1 = Raise e2 /\
    ~ (class_of e1 <> class_of e2).
Proof.
  eexists _, _. split; [vm_compute; reflexivity|].
  split; [vm_compute; reflexivity|].
  intros H. apply H. reflexivity.
Qed.


Lemma fetch_invalid_json_raises_witness :
  exists e,
    fetch_post_response_data mock_host "https://x/wp-json/wp/v2/pages/1" [] =
      (Raise e, [get_request "https://x/wp-json/wp/v2/pages/1"]) /\
    message_of e =
      Some "Invalid JSON response from https://x/wp-json/wp/v2/pages/1: <html>not json</html>" /\
    class_of e = ClsHTTPStatusError.
Proof.
  destruct (fetch_invalid_json_raises mock_host "https://x/wp-json/wp/v2/pages/1" []
              200 not_json_body) as (e & H1 & H2 & _ & H3 & _).
  - vm_compute. reflexivity.
  - lia.
  - vm_compute. reflexivity.
  - exists e. split; [exact H1|]. split; [exact H2|exact H3].
Defined.

Lemma format_post_exactly_six_fields_witness :
  exists m,
    format_post_response_data (sample_post 10 "First" "<p>one</p>") = Ok (JObject m) /\
    dom m = post_keys /\
    m !! "id" = Some (JInt 10) /\
    m !! "date" = Some (JString "2024-01-01T00:00:00") /\
    m !! "link" = Some (JString "https://x/p") /\
    m !! "title" = Some (JString "First") /\
    m !! "content" = Some (JString "<p>one</p>") /\
    m !! "featured_media" = Some (JInt 0).
Proof.
  apply (format_post_exactly_six_fields (sample_post_fields 10 "First" "<p>one</p>")
           {[ "rendered" := JString "First" ]} {[ "rendered" := JString "<p>one</p>" ]});
    vm_compute; reflexivity.
Defined.

Lemma missing_key_raises_witness :
  (exists e, format_post_response_data post_without_link = Raise e /\ e = KeyError "link") /\
  (exists k, format_category (JObject category_without_count) = Raise (KeyError k)).
Proof.
  split.
  - destruct (proj1 (missing_key_raises post_without_link_fields)) as (e & He & _).
    + unfold misses_path, post_paths. do 2 apply Exists_cons_tl.
      apply Exists_cons_hd. vm_compute. reflexivity.
    + exists e. split; [exact He|].
      assert (Hc : format_post_response_data post_without_link = Raise (KeyError "link"))
        by (vm_compute; reflexivity).
      unfold post_without_link in Hc. rewrite He in Hc. by inversion Hc.
  - destruct (proj2 (missing_key_raises category_without_count)) as (k & _ & _ & Hk).
    + unfold misses_path, category_paths. do 2 apply Exists_cons_tl.
      apply Exists_cons_hd. vm_compute. reflexivity.
    + exists k. exact Hk.
Defined.

Lemma fetch_bad_status_raises_witness :
  exists msg resp,
    fetch_post_response_data mock_host "https://x/wp-json/wp/v2/posts/999" [] =
      (Raise (HTTPStatusError msg (get_request "https://x/wp-json/wp/v2/posts/999") resp),
       [get_request "https://x/wp-json/wp/v2/posts/999"]) /\
    status_code resp = 404%Z /\ text resp = "Not Found" /\
    request resp = get_request "https://x/wp-json/wp/v2/posts/999" /\
    url (request resp) = "https://x/wp-json/wp/v2/posts/999".
Proof.
  apply (fetch_bad_status_raises mock_host "https://x/wp-json/wp/v2/posts/999" [] 404 "Not Found").
  - vm_compute. reflexivity.
  - lia.
Defined.

Lemma list_tool_fails_whole_witness :
  exists e,
    fetch_posts_by_category_tool mock_host "3" None [] =
      (Raise e, [get_request "https://x/wp-json/wp/v2/posts?categories=3&page=1"]) /\
    Exists (fun x => format_post_response_data x = Raise e) one_bad_post.
Proof.
  apply (list_tool_fails_whole mock_host (FetchPostsByCategory "3" None) [] one_bad_post).
  - exists 200%Z, one_bad_post_body. split; [vm_compute; reflexivity|].
    split; [lia|vm_compute; reflexivity].
  - unfold one_bad_post. apply Exists_cons_tl, Exists_cons_hd.
    vm_compute. reflexivity.
Defined.

Lemma fetch_posts_tool_spec_witness :
  exists out,
    fetch_posts_tool mock_host None None [] =
      (Ok (JArray out), [get_request "https://x/wp-json/wp/v2/posts?page=1&per_page=2"]) /\
    length out = 2 /\
    Forall2 summary_of two_posts out.
Proof.
  destruct (fetch_posts_tool_spec mock_host None None []) as (_ & _ & H).
  apply (H two_posts).
  - exists 200%Z, two_posts_body. split; [vm_compute; reflexivity|].
    split; [lia|vm_compute; reflexivity].
  - unfold two_posts, has_paths, post_paths.
    do 2 (constructor; [repeat constructor; vm_compute; eexists; reflexivity|]).
    constructor.
Defined.

Lemma fetch_categories_identity_witness :
  fetch_categories_tool mock_host [] =
    (Ok (JArray [JObject news_category]),
     [get_request "https://x/wp-json/wp/v2/categories"]).
Proof.
  apply (fetch_categories_identity mock_host [news_category] []).
  - constructor; [vm_compute; reflexivity|constructor].
  - exists 200%Z, news_body. split; [vm_compute; reflexivity|].
    split; [lia|vm_compute; reflexivity].
Defined.

Lemma format_post_leaves_input_witness :
  exists r h',
    Heap.format_post_response_data (Heap.VRef 1) Heap.sample_store = Some (r, h') /\
    (forall l o, Heap.sample_store !! l = Some o -> h' !! l = Some o).
Proof.
  destruct (format_post_leaves_input Heap.sample_store (Heap.VRef 1))
    as (r & h' & H1 & H2 & _).
  - apply (bool_decide_unpack (Heap.wf_heap Heap.sample_store)). vm_compute. exact I.
  - vm_compute. eexists. reflexivity.
  - exists r, h'. split; [exact H1|exact H2].
Defined.

Lemma invalid_json_error_has_success_response_witness :
  exists e resp,
    (fetch_post_response_data mock_host "https://x/wp-json/wp/v2/pages/1" []).1 = Raise e /\
    response_of e = Some resp /\
    status_code resp = 200%Z /\ text resp = not_json_body /\
    is_success resp = true.
Proof.
  destruct (invalid_json_error_has_success_response mock_host
              "https://x/wp-json/wp/v2/pages/1" [] 200 not_json_body)
    as (e & resp & H1 & H2 & H3 & H4 & H5 & _).
  - vm_compute. reflexivity.
  - lia.
  - vm_compute. reflexivity.
  - exists e, resp. repeat split; assumption.
Defined.


(** ** Further checks on the test double *)

(** [fetch_post_by_id] on an id the server does not know: the 404 comes
    back as an exception, not as an empty object. *)
Example fetch_post_by_id_404 :
  exists msg resp,
    fetch_post_by_id_tool mock_host 999 [] =
      (Raise (HTTPStatusError msg (get_request "https://x/wp-json/wp/v2/posts/999") resp),
       [get_request "https://x/wp-json/wp/v2/posts/999"]) /\
    status_code resp = 404%Z.
Proof. eexists _, _. split; vm_compute; reflexivity. Qed.

(** A response that decodes to an object, not a list: the comprehension
    runs over the keys, which are strings and cannot be subscripted. *)
Example comprehension_over_object :
  comprehension format_post_response_data (JObject news_category) =
    Raise (TypeError (BadSubscript Str)).
Proof. vm_compute. reflexivity. Qed.

(** A response that decodes to a number cannot be iterated at all. *)
Example comprehension_over_number :
  comprehension format_category (JInt 3) = Raise (TypeError (NotIterable Int)).
Proof. reflexivity. Qed.

(** With [WORDPRESS_URL] unset the URL starts with the text [None]. *)
Example url_without_base :
  fetch_posts_url (mkHost None mock_server (fun _ => None) mock_status_message) 1 2 =
    "None/wp-json/wp/v2/posts?page=1&per_page=2".
Proof. reflexivity. Qed.

(** The store after shaping the sample post: the three old objects and
    one new dict, whose values are those of the input. *)
Example shaping_on_sample_store :
  exists l h',
    Heap.format_post_response_data (Heap.VRef 1) Heap.sample_store =
      Some (Ok (Heap.VRef l), h') /\
    (l ∉ dom Heap.sample_store) /\
    Heap.reify 2 h' (Heap.VRef 1) = Heap.reify 2 Heap.sample_store (Heap.VRef 1) /\
    Heap.reify 2 h' (Heap.VRef l) =
      Some (JObject (<["featured_media" := JInt 0]>
                    (<["content" := JString "<p>Hi</p>"]>
                    (<["title" := JString "Hello"]>
                    (<["link" := JString "https://x/p"]>
                    (<["date" := JString "2024-01-01T00:00:00"]>
                    (<["id" := JInt 7]> ∅))))))).
Proof.
  eexists _, _. split; [vm_compute; reflexivity|].
  split; [|split; vm_compute; reflexivity].
  apply (bool_decide_unpack (_ ∉ dom Heap.sample_store)). vm_compute. exact I.
Qed.

(** * Further properties of the code *)

(** ** The fetcher, all outcomes *)

Lemma fetch_outcome (host : Host) (u : string) (w : World) :
  fetch_post_response_data host u w =
    (match server host w (get_request u) with
     | NoReply reason => Raise (RequestError reason)
     | Reply status body =>
         let resp := mkResponse status body (get_request u) in
         if is_success resp then
           match json_loads host body with
           | Some v => Ok v
           | None =>
               Raise (HTTPStatusError
                        ("Invalid JSON response from " +:+ u +:+ ": " +:+ body)
                        (get_request u) resp)
           end
         else Raise (HTTPStatusError (status_message host resp) (get_request u) resp)
     end, w ++ [get_request u]).
Proof.
  unfold fetch_post_response_data, mbind, IO_bind, client_get, lift.
  fold (get_request u).
  destruct (server host w (get_request u)) as [status body|reason]; [|reflexivity].
  simpl. unfold raise_for_status.
  destruct (is_success _); simpl; [|reflexivity].
  destruct (json_loads host body); reflexivity.
Qed.

Lemma fetch_ok_inv (host : Host) (u : string) (w : World) (v : json) :
  (fetch_post_response_data host u w).1 = Ok v -> serves host w u v.
Proof.
  rewrite fetch_outcome. unfold serves. simpl.
  destruct (server host w (get_request u)) as [status body|reason]; [|discriminate].
  simpl. destruct (is_success _) eqn:E; [|discriminate].
  destruct (json_loads host body) as [v'|] eqn:Ej; [|discriminate].
  intros [= <-]. exists status, body. split; [reflexivity|].
  split; [|exact Ej]. by apply is_success_range in E.
Qed.

Lemma fetch_error_class (host : Host) (u : string) (w : World) (e : exn) :
  (fetch_post_response_data host u w).1 = Raise e ->
  is_fetch_class (class_of e) = true.
Proof.
  rewrite fetch_outcome. simpl.
  destruct (server host w (get_request u)) as [status body|reason]; simpl.
  - destruct (is_success _).
    + destruct (json_loads host body); [discriminate|]. by intros [= <-].
    + by intros [= <-].
  - by intros [= <-].
Qed.

(** X1.  [fetch_post_response_data] returns a value exactly when the
    server answers with a status in 200..299 and a body that decodes, and
    the value is the decoded body, whatever JSON value that is. *)
Theorem fetch_returns_iff_served (host : Host) (u : string) (w : World) (v : json) :
  (fetch_post_response_data host u w).1 = Ok v <-> serves host w u v.
Proof.
  rewrite fetch_outcome. unfold serves. simpl. split.
  - destruct (server host w (get_request u)) as [status body|reason]; [|discriminate].
    simpl. destruct (is_success _) eqn:E; [|discriminate].
    destruct (json_loads host body) as [v'|] eqn:Ej; [|discriminate].
    intros [= <-]. exists status, body. split; [reflexivity|].
    split; [|exact Ej]. by apply is_success_range in E.
  - intros (status & body & -> & Hr & Hj). simpl.
    rewrite (proj2 (is_success_range (mkResponse status body (get_request u)))) by exact Hr.
    by rewrite Hj.
Qed.


(** ** The shapers, all outcomes *)

Lemma getpath_lookup (v x : json) (p : list string) :
  getpath v p = Ok x <-> lookup_path v p = Some x.
Proof.
  revert v. induction p as [|k p IH]; intros v; simpl.
  - split; intros [= ->]; reflexivity.
  - destruct v as [|?|?|?|?|?|d]; simpl; try (split; discriminate).
    destruct (d !! k) as [y|]; simpl; [apply IH|split; discriminate].
Qed.

Lemma getpath_returns (v : json) (p : list string) :
  returns (getpath v p) = true <-> is_Some (lookup_path v p).
Proof.
  split.
  - destruct (getpath v p) as [x|] eqn:E; [|discriminate].
    intros _. exists x. by apply getpath_lookup.
  - intros [x Hx]. apply getpath_lookup in Hx. by rewrite Hx.
Qed.

Lemma first_error_None (v : json) (paths : list (list string)) :
  first_error v paths = None <-> has_paths paths v.
Proof.
  unfold has_paths. induction paths as [|p paths IH]; simpl.
  - split; [constructor|reflexivity].
  - rewrite Forall_cons, <- IH, <- getpath_returns.
    destruct (getpath v p); simpl; split; intros H; try discriminate.
    + split; [reflexivity|exact H].
    + apply H.
    + destruct H as [H _]. discriminate.
Qed.

(** One subscription at the head of a dict display and of [first_error]. *)
Ltac step_getitem v k :=
  destruct (getitem v k); simpl;
  [|split; intros H; inversion H; reflexivity].

Lemma format_post_first_error (v : json) (e : exn) :
  format_post_response_data v = Raise e <-> first_error v post_paths = Some e.
Proof.
  unfold format_post_response_data, post_paths, first_error, getpath.
  unfold mbind, mret, result_bind, result_ret.
  step_getitem v "id". step_getitem v "date". step_getitem v "link".
  destruct (getitem v "title") as [t|]; simpl;
    [|split; intros H; inversion H; reflexivity].
  step_getitem t "rendered".
  destruct (getitem v "content") as [c|]; simpl;
    [|split; intros H; inversion H; reflexivity].
  step_getitem c "rendered". step_getitem v "featured_media".
  split; discriminate.
Qed.

Lemma format_category_first_error (v : json) (e : exn) :
  format_category v = Raise e <-> first_error v category_paths = Some e.
Proof.
  unfold format_category, category_paths, first_error, getpath.
  unfold mbind, mret, result_bind, result_ret.
  step_getitem v "id". step_getitem v "name". step_getitem v "count".
  step_getitem v "link". split; discriminate.
Qed.

Lemma format_site_info_first_error (v : json) (e : exn) :
  format_site_info v = Raise e <-> first_error v site_info_paths = Some e.
Proof.
  unfold format_site_info, site_info_paths, first_error, getpath.
  unfold mbind, mret, result_bind, result_ret.
  step_getitem v "name". step_getitem v "description". step_getitem v "url".
  split; discriminate.
Qed.

Lemma returns_iff_no_error {A : Type} (r : result A) (o : option exn) :
  (forall e, r = Raise e <-> o = Some e) -> (returns r = true <-> o = None).
Proof.
  intros H. destruct r as [a|e]; simpl.
  - split; [|reflexivity]. intros _. destruct o as [e|]; [|reflexivity].
    pose proof (proj2 (H e) eq_refl). discriminate.
  - split; [discriminate|]. intros ->.
    pose proof (proj1 (H e) eq_refl). discriminate.
Qed.

(** X4.  [format_post_response_data] returns exactly on the values in
    which all six key paths can be followed, and then its result is the
    six-key summary; on every other value, objects and non-objects alike,
    it raises. *)
Theorem format_post_returns_iff (v : json) :
  (returns (format_post_response_data v) = true <-> has_paths post_paths v) /\
  (forall s, format_post_response_data v = Ok s -> summary_of v s).
Proof.
  assert (Hiff : returns (format_post_response_data v) = true <-> has_paths post_paths v).
  { rewrite <- first_error_None. apply returns_iff_no_error.
    intros e. apply format_post_first_error. }
  split; [exact Hiff|].
  intros s Hs. assert (Hp : has_paths post_paths v) by (apply Hiff; by rewrite Hs).
  destruct (format_post_summary v Hp) as (s' & Hs' & Hsum). congruence.
Qed.

(** X5.  Each of the three dict displays raises the exception of the
    first key path, in the order the display is written, that cannot be
    followed: later missing keys are not reported. *)
Theorem shapers_raise_first_error (v : json) (e : exn) :
  (format_post_response_data v = Raise e <-> first_error v post_paths = Some e) /\
  (format_category v = Raise e <-> first_error v category_paths = Some e) /\
  (format_site_info v = Raise e <-> first_error v site_info_paths = Some e).
Proof.
  split; [apply format_post_first_error|].
  split; [apply format_category_first_error|apply format_site_info_first_error].
Qed.

(** X6.  [format_post_response_data] reads the six key paths and nothing
    else: a value that agrees with a well-formed post on those paths gets
    the same summary, whatever other keys either of them has. *)
Theorem format_post_reads_only_six_paths (p p' : json) :
  has_paths post_paths p ->
  Forall (fun q => lookup_path p' q = lookup_path p q) post_paths ->
  format_post_response_data p' = format_post_response_data p.
Proof.
  intros Hp Heq.
  assert (Hp' : has_paths post_paths p').
  { unfold has_paths in *. rewrite Forall_forall in *.
    intros q Hq. rewrite (Heq q Hq). by apply Hp. }
  destruct (has_paths_post_inv p Hp)
    as (o & t & c & i & d & l & tr & cr & fm & -> & Hi & Hd & Hl & Ht & Htr & Hc & Hcr & Hf).
  destruct (has_paths_post_inv p' Hp')
    as (o' & t' & c' & i' & d' & l' & tr' & cr' & fm' & -> & Hi' & Hd' & Hl' & Ht'
        & Htr' & Hc' & Hcr' & Hf').
  rewrite (format_post_ok o t c i d l tr cr fm) by assumption.
  rewrite (format_post_ok o' t' c' i' d' l' tr' cr' fm') by assumption.
  unfold post_paths in Heq. rewrite !Forall_cons in Heq. simpl in Heq.
  rewrite Hi, Hd, Hl, Ht, Htr, Hc, Hcr, Hf, Hi', Hd', Hl', Ht', Htr', Hc', Hcr', Hf' in Heq.
  destruct Heq as ([= ->] & [= ->] & [= ->] & [= ->] & [= ->] & [= ->] & _).
  reflexivity.
Qed.

Lemma restrict_lookup_in (keys : gset string) (d : gmap string json) (k : string) :
  k ∈ keys -> restrict keys d !! k = d !! k.
Proof.
  intros Hk. unfold restrict. destruct (d !! k) as [x|] eqn:E.
  - by apply map_lookup_filter_Some_2.
  - apply map_lookup_filter_None_2. by left.
Qed.

Lemma restrict_lookup_out (keys : gset string) (d : gmap string json) (k : string) :
  k ∉ keys -> restrict keys d !! k = None.
Proof.
  intros Hk. unfold restrict. apply map_lookup_filter_None_2.
  right. intros x _. exact Hk.
Qed.

Lemma format_category_restrict (c : gmap string json) :
  has_paths category_paths (JObject c) ->
  format_category (JObject c) = Ok (JObject (restrict category_keys c)).
Proof.
  unfold has_paths, category_paths. rewrite !Forall_cons. simpl.
  intros (Hi & Hn & Hc & Hl & _).
  destruct (c !! "id") as [i|] eqn:Ei; [|by destruct Hi].
  destruct (c !! "name") as [n|] eqn:En; [|by destruct Hn].
  destruct (c !! "count") as [ct|] eqn:Ec; [|by destruct Hc].
  destruct (c !! "link") as [l|] eqn:El; [|by destruct Hl].
  unfold format_category, getitem; simpl.
  rewrite Ei; simpl. rewrite En; simpl. rewrite Ec; simpl. rewrite El; simpl.
  do 2 f_equal. apply map_eq. intros k.
  destruct (decide (k ∈ category_keys)) as [Hk|Hk].
  - rewrite (restrict_lookup_in _ _ _ Hk). unfold category_keys in Hk.
    rewrite !elem_of_union, !elem_of_singleton in Hk.
    destruct Hk as [[[->| ->]| ->]| ->]; by simplify_map_eq.
  - rewrite (restrict_lookup_out _ _ _ Hk). unfold category_keys in Hk.
    rewrite !not_elem_of_union, !not_elem_of_singleton in Hk.
    destruct Hk as [[[? ?] ?] ?]. by simplify_map_eq.
Qed.

Lemma format_site_info_restrict (o : gmap string json) :
  has_paths site_info_paths (JObject o) ->
  format_site_info (JObject o) = Ok (JObject (restrict site_info_keys o)).
Proof.
  unfold has_paths, site_info_paths. rewrite !Forall_cons. simpl.
  intros (Hn & Hd & Hu & _).
  destruct (o !! "name") as [n|] eqn:En; [|by destruct Hn].
  destruct (o !! "description") as [d|] eqn:Ed; [|by destruct Hd].
  destruct (o !! "url") as [u|] eqn:Eu; [|by destruct Hu].
  unfold format_site_info, getitem; simpl.
  rewrite En; simpl. rewrite Ed; simpl. rewrite Eu; simpl.
  do 2 f_equal. apply map_eq. intros k.
  destruct (decide (k ∈ site_info_keys)) as [Hk|Hk].
  - rewrite (restrict_lookup_in _ _ _ Hk). unfold site_info_keys in Hk.
    rewrite !elem_of_union, !elem_of_singleton in Hk.
    destruct Hk as [[->| ->]| ->]; by simplify_map_eq.
  - rewrite (restrict_lookup_out _ _ _ Hk). unfold site_info_keys in Hk.
    rewrite !not_elem_of_union, !not_elem_of_singleton in Hk.
    destruct Hk as [[? ?] ?]. by simplify_map_eq.
Qed.

(** X7.  The category display is a projection: on an object that has
    [id], [name], [count] and [link] it returns the object restricted to
    those four keys, so every other key is dropped and the four values are
    kept; shaping the result again changes nothing. *)
Theorem format_category_projects (c : gmap string json) :
  has_paths category_paths (JObject c) ->
  format_category (JObject c) = Ok (JObject (restrict category_keys c)) /\
  dom (restrict category_keys c) = category_keys /\
  format_category (JObject (restrict category_keys c)) =
    Ok (JObject (restrict category_keys c)).
Proof.
  intros Hc. split; [by apply format_category_restrict|].
  assert (Hdom : dom (restrict category_keys c) = category_keys).
  { apply set_eq. intros k. rewrite elem_of_dom. split.
    - intros [x Hx]. destruct (decide (k ∈ category_keys)) as [|Hk]; [done|].
      rewrite (restrict_lookup_out _ _ _ Hk) in Hx. discriminate.
    - intros Hk. rewrite (restrict_lookup_in _ _ _ Hk).
      unfold has_paths, category_paths in Hc. rewrite !Forall_cons in Hc. simpl in Hc.
      destruct Hc as (Hi & Hn & Hct & Hl & _).
      unfold category_keys in Hk. rewrite !elem_of_union, !elem_of_singleton in Hk.
      destruct Hk as [[[->| ->]| ->]| ->].
      + destruct (c !! "id"); [by eexists|by destruct Hi].
      + destruct (c !! "name"); [by eexists|by destruct Hn].
      + destruct (c !! "count"); [by eexists|by destruct Hct].
      + destruct (c !! "link"); [by eexists|by destruct Hl]. }
  split; [exact Hdom|]. by apply format_category_id.
Qed.

(** ** Comprehensions, all outcomes *)

Lemma mapM_result_ok_inv (f : json -> result json) (l k : list json) :
  mapM f l = Ok k -> Forall2 (fun x y => f x = Ok y) l k.
Proof.
  revert k. induction l as [|x l IH]; intros k; simpl.
  - intros [= <-]. constructor.
  - destruct (f x) as [y|] eqn:Ex; simpl; [|discriminate].
    destruct (mapM f l) as [k'|] eqn:El; simpl; [|discriminate].
    intros [= <-]. constructor; [exact Ex|by apply IH].
Qed.

Lemma mapM_strings_raise (f : json -> result json) (e : exn) (l : list json) :
  (forall x, x ∈ l -> f x = Raise e) -> l <> [] -> mapM f l = Raise e.
Proof.
  intros Hf Hl. destruct l as [|x l]; [done|]. simpl.
  rewrite (Hf x) by constructor. reflexivity.
Qed.

Lemma chars_strings (s : string) (x : json) :
  x ∈ chars s -> exists c, x = JString c.
Proof.
  induction s as [|a s IH]; simpl; intros H.
  - inversion H.
  - apply elem_of_cons in H as [->|H]; [by eexists|by apply IH].
Qed.

Lemma shape_of_string (t : list_tool) (s : string) :
  list_tool_shape t (JString s) = Raise (TypeError (BadSubscript Str)).
Proof. destruct t; reflexivity. Qed.

Section ListToolFacts.

Context (host : Host).

(** X8.  On a response that decodes to a list, a list tool returns
    exactly when every element shapes, and then the result is the list of
    the shaped elements: as many as came in, in the order they came in,
    none skipped, merged or added. *)
Theorem list_tool_returns_iff (t : list_tool) (w : World) (items : list json) (r : json) :
  serves host w (list_tool_url host t) (JArray items) ->
  ((run_list_tool host t w).1 = Ok r <->
   exists out, r = JArray out /\
     Forall2 (fun x y => list_tool_shape t x = Ok y) items out).
Proof.
  intros Hs. rewrite (run_list_tool_served host t w _ Hs). simpl.
  unfold comprehension; simpl. split.
  - destruct (mapM (list_tool_shape t) items) as [out|] eqn:E; simpl; [|discriminate].
    intros [= <-]. exists out. split; [reflexivity|by apply mapM_result_ok_inv].
  - intros (out & -> & H). by rewrite (mapM_result_ok _ _ _ H).
Qed.

(** X9.  A list tool does not check that the response is a list.  An
    empty list, an empty object and an empty string all give the empty
    list; a non-empty object or string is iterated key by key or character
    by character and raises a [TypeError], since a string cannot be
    subscripted; null, a boolean or a number cannot be iterated and raises
    a [TypeError] too. *)
Theorem list_tool_on_other_values (t : list_tool) (w : World) (v : json) :
  serves host w (list_tool_url host t) v ->
  (v = JArray [] \/ v = JObject ∅ \/ v = JString EmptyString ->
   (run_list_tool host t w).1 = Ok (JArray [])) /\
  ((exists d, v = JObject d /\ d <> ∅) \/ (exists s, v = JString s /\ s <> EmptyString) ->
   (run_list_tool host t w).1 = Raise (TypeError (BadSubscript Str))) /\
  (type_of v <> List -> type_of v <> Dict -> type_of v <> Str ->
   (run_list_tool host t w).1 = Raise (TypeError (NotIterable (type_of v)))).
Proof.
  intros Hs. rewrite (run_list_tool_served host t w _ Hs). simpl.
  split; [|split].
  - intros [->|[->| ->]]; reflexivity.
  - intros [(d & -> & Hd)|(s & -> & Hne)]; unfold comprehension; simpl.
    + rewrite (mapM_strings_raise _ (TypeError (BadSubscript Str))); [reflexivity| |].
      * intros x Hx. apply list_elem_of_fmap in Hx as (k & -> & _).
        apply shape_of_string.
      * intros H. apply fmap_nil_inv, fmap_nil_inv, map_to_list_empty_iff in H. done.
    + rewrite (mapM_strings_raise _ (TypeError (BadSubscript Str))); [reflexivity| |].
      * intros x Hx. apply chars_strings in Hx as [c ->]. apply shape_of_string.
      * destruct s; [done|discriminate].
  - intros H1 H2 H3. destruct v; try done.
Qed.

End ListToolFacts.

(** ** The classes of shaping exceptions *)

Lemma getitem_error_class (v : json) (k : string) (e : exn) :
  getitem v k = Raise e -> is_shape_class (class_of e) = true.
Proof.
  destruct v as [|?|?|?|?|?|d]; simpl; try (intros [= <-]; reflexivity).
  destruct (d !! k); [discriminate|]. intros [= <-]. reflexivity.
Qed.

Lemma getpath_error_class (v : json) (p : list string) (e : exn) :
  getpath v p = Raise e -> is_shape_class (class_of e) = true.
Proof.
  revert v. induction p as [|k p IH]; intros v; simpl; [discriminate|].
  destruct (getitem v k) as [x|e'] eqn:E; simpl.
  - apply IH.
  - intros [= <-]. by apply getitem_error_class in E.
Qed.

Lemma first_error_class (v : json) (paths : list (list string)) (e : exn) :
  first_error v paths = Some e -> is_shape_class (class_of e) = true.
Proof.
  induction paths as [|p paths IH]; simpl; [discriminate|].
  destruct (getpath v p) as [x|e'] eqn:E; [exact IH|].
  intros [= <-]. by apply getpath_error_class in E.
Qed.

Lemma mapM_result_raise_inv (f : json -> result json) (l : list json) (e : exn) :
  mapM f l = Raise e -> exists x, x ∈ l /\ f x = Raise e.
Proof.
  induction l as [|a l IH]; simpl; [discriminate|].
  destruct (f a) as [y|e'] eqn:Ea; simpl.
  - destruct (mapM f l) as [k|e''] eqn:El; simpl; [discriminate|].
    intros [= <-]. destruct (IH eq_refl) as (x & Hx & Hfx).
    exists x. split; [by right|exact Hfx].
  - intros [= <-]. exists a. split; [by left|exact Ea].
Qed.

Lemma list_tool_shape_error_class (t : list_tool) (v : json) (e : exn) :
  list_tool_shape t v = Raise e -> is_shape_class (class_of e) = true.
Proof.
  destruct t; simpl; intros H.
  1-3: apply format_post_first_error in H; by apply first_error_class in H.
  apply format_category_first_error in H; by apply first_error_class in H.
Qed.

Lemma tool_shape_error_class (c : tool_call) (v : json) (e : exn) :
  tool_shape c v = Raise e -> is_shape_class (class_of e) = true.
Proof.
  destruct c as [|t|i|i]; simpl; intros H.
  - apply format_site_info_first_error in H. by apply first_error_class in H.
  - unfold comprehension in H.
    destruct (iterate v) as [l|e'] eqn:Ei; simpl in H.
    + destruct (mapM (list_tool_shape t) l) as [k|e''] eqn:Em; simpl in H; [discriminate|].
      inversion H; subst. apply mapM_result_raise_inv in Em as (x & _ & Hx).
      by apply list_tool_shape_error_class in Hx.
    + inversion H; subst. destruct v; simpl in Ei; inversion Ei; reflexivity.
  - apply format_post_first_error in H. by apply first_error_class in H.
  - apply format_post_first_error in H. by apply first_error_class in H.
Qed.

(** ** The seven tools *)

Section AllTools.

Context (host : Host).

(** Every tool is one fetch of its URL followed by its shape. *)
Lemma run_tool_outcome (c : tool_call) (w : World) :
  run_tool host c w =
    (match (fetch_post_response_data host (tool_url host c) w).1 with
     | Ok v => tool_shape c v
     | Raise e => Raise e
     end, w ++ [get_request (tool_url host c)]).
Proof.
  assert (Hu : run_tool host c =
                 (v ← fetch_post_response_data host (tool_url host c);
                  lift (tool_shape c v))).
  { destruct c as [|t|i|i]; try reflexivity. apply run_list_tool_unfold. }
  rewrite Hu. unfold mbind, IO_bind.
  pose proof (fetch_sends_one_request host (tool_url host c) w) as H.
  destruct (fetch_post_response_data host _ w) as [[v|e] w']; simpl in *; subst; reflexivity.
Qed.

(** X11.  The class of the exception of a failed tool call tells the
    stage that failed.  An [HTTPStatusError] or a transport error is the
    exception of the fetch, handed on unchanged, and no decoded response
    exists; a [KeyError] or a [TypeError] comes from shaping a response
    that was fetched and decoded. *)
Theorem tool_error_stage (c : tool_call) (w : World) (e : exn) :
  (run_tool host c w).1 = Raise e ->
  (is_fetch_class (class_of e) = true /\
   (fetch_post_response_data host (tool_url host c) w).1 = Raise e /\
   forall v, ~ serves host w (tool_url host c) v) \/
  (is_shape_class (class_of e) = true /\
   exists v, serves host w (tool_url host c) v /\ tool_shape c v = Raise e).
Proof.
  rewrite run_tool_outcome. simpl.
  destruct (fetch_post_response_data host (tool_url host c) w).1 as [v|e'] eqn:E.
  - intros H. right. split; [by apply tool_shape_error_class in H|].
    exists v. split; [by apply fetch_ok_inv|exact H].
  - intros [= <-]. left. split; [|split; [reflexivity|]].
    + by apply (fetch_error_class host (tool_url host c) w).
    + intros v Hv. apply fetch_ok in Hv. rewrite Hv in E. discriminate.
Qed.

End AllTools.

Lemma shape_all_posts (posts : list json) :
  Forall (has_paths post_paths) posts ->
  exists out,
    Forall2 (fun x y => format_post_response_data x = Ok y) posts out /\
    Forall2 summary_of posts out.
Proof.
  induction 1 as [|p posts Hp _ (out & H1 & H2)].
  - exists []. split; constructor.
  - destruct (format_post_summary p Hp) as (s & Hs1 & Hs2).
    exists (s :: out). split; constructor; assumption.
Qed.

Section SingleTools.

Context (host : Host).

Lemma run_tool_served (c : tool_call) (w : World) (v : json) :
  serves host w (tool_url host c) v ->
  run_tool host c w = (tool_shape c v, w ++ [get_request (tool_url host c)]).
Proof.
  intros H. rewrite run_tool_outcome. by rewrite (fetch_ok host _ w v H).
Qed.

(** X12.  [fetch_wordpress_info] sends one GET of [{base}/wp-json]; on an
    object that has [name], [description] and [url] it returns the object
    restricted to those three keys, each with the value it had, whatever
    else the site reports; on an object without one of them it raises
    [KeyError] for the first that is missing, in the order [name],
    [description], [url]. *)
Theorem fetch_wordpress_info_tool_spec (w : World) (o : gmap string json) :
  serves host w (str_env (WORDPRESS_URL host) +:+ "/wp-json") (JObject o) ->
  (has_paths site_info_paths (JObject o) ->
   fetch_wordpress_info_tool host w =
     (Ok (JObject (restrict site_info_keys o)),
      w ++ [get_request (str_env (WORDPRESS_URL host) +:+ "/wp-json")]) /\
   (forall k, k ∈ site_info_keys -> restrict site_info_keys o !! k = o !! k) /\
   (forall k, k ∉ site_info_keys -> restrict site_info_keys o !! k = None)) /\
  (o !! "name" = None ->
   (fetch_wordpress_info_tool host w).1 = Raise (KeyError "name")) /\
  (is_Some (o !! "name") -> o !! "description" = None ->
   (fetch_wordpress_info_tool host w).1 = Raise (KeyError "description")) /\
  (is_Some (o !! "name") -> is_Some (o !! "description") -> o !! "url" = None ->
   (fetch_wordpress_info_tool host w).1 = Raise (KeyError "url")).
Proof.
  intros Hs.
  pose proof (run_tool_served CallWordpressInfo w _ Hs) as Hrun. simpl in Hrun.
  rewrite Hrun. simpl. unfold format_site_info at 2 3 4, getitem.
  split; [|split; [|split]].
  - intros Hp. split; [|split].
    + by rewrite (format_site_info_restrict o Hp).
    + intros k. apply restrict_lookup_in.
    + intros k. apply restrict_lookup_out.
  - intros ->. reflexivity.
  - intros [n ->] ->. reflexivity.
  - intros [n ->] [d ->] ->. reflexivity.
Qed.

(** X13.  [fetch_post_by_id] and [fetch_page_by_id] put the id in the URL
    as a decimal number, with no check on its range, and shape the decoded
    response as one post: a well-formed post gives its summary, and a
    response that is a list, even a list of well-formed posts, raises a
    [TypeError]. *)
Theorem single_item_tools_spec (c : tool_call) (id : Z) (w : World) (v : json) :
  c = CallPostById id \/ c = CallPageById id ->
  serves host w (tool_url host c) v ->
  (tool_url host c =
     str_env (WORDPRESS_URL host) +:+ "/wp-json/wp/v2/posts/" +:+ str_int id \/
   tool_url host c =
     str_env (WORDPRESS_URL host) +:+ "/wp-json/wp/v2/pages/" +:+ str_int id) /\
  (has_paths post_paths v ->
   exists s, run_tool host c w = (Ok s, w ++ [get_request (tool_url host c)]) /\
             summary_of v s) /\
  (forall items, v = JArray items ->
   run_tool host c w =
     (Raise (TypeError (BadSubscript List)), w ++ [get_request (tool_url host c)])).
Proof.
  intros Hc Hs. rewrite (run_tool_served c w v Hs).
  split; [destruct Hc as [->| ->]; [by left|by right]|].
  assert (Hshape : tool_shape c = format_post_response_data)
    by (destruct Hc as [->| ->]; reflexivity).
  rewrite Hshape. split.
  - intros Hp. destruct (format_post_summary v Hp) as (s & -> & Hsum). by exists s.
  - intros items ->. reflexivity.
Qed.

(** X14.  [fetch_pages] sends one GET of
    [{base}/wp-json/wp/v2/pages?page={page}&per_page={per_page}], where an
    omitted [page] is 1 and an omitted [per_page] is 2, and shapes pages
    as posts: a list of well-formed pages gives the list of their
    summaries, one per page and in the same order. *)
Theorem fetch_pages_tool_spec (page per_page : option Z) (w : World) :
  let u := str_env (WORDPRESS_URL host) +:+ "/wp-json/wp/v2/pages?page="
             +:+ str_int (default 1%Z page) +:+ "&per_page="
             +:+ str_int (default 2%Z per_page) in
  (fetch_pages_tool host page per_page w).2 = w ++ [get_request u] /\
  (page = None -> per_page = None ->
   u = str_env (WORDPRESS_URL host) +:+ "/wp-json/wp/v2/pages?page=1&per_page=2") /\
  (forall pages,
     serves host w u (JArray pages) ->
     Forall (has_paths post_paths) pages ->
     exists out,
       fetch_pages_tool host page per_page w = (Ok (JArray out), w ++ [get_request u]) /\
       length out = length pages /\
       Forall2 summary_of pages out).
Proof.
  intros u. split; [|split].
  - apply (run_list_tool_sends_one_request host (FetchPages page per_page)).
  - intros -> ->. reflexivity.
  - intros pages Hs Hpages.
    destruct (shape_all_posts pages Hpages) as (out & H1 & H2). exists out.
    split; [|split; [symmetry; eapply Forall2_length; eassumption | assumption]].
    etrans; [exact (run_list_tool_served host (FetchPages page per_page) w _ Hs)|].
    simpl. by rewrite (comprehension_ok _ _ _ H1).
Qed.

(** X15.  [fetch_posts_by_category], with [page] omitted, asks for page 1
    of the category, and on a list of well-formed posts returns the list
    of their summaries, one per post and in the same order. *)
Theorem fetch_posts_by_category_tool_spec
    (category : string) (page : option Z) (w : World) (posts : list json) :
  let u := str_env (WORDPRESS_URL host) +:+ "/wp-json/wp/v2/posts?categories="
             +:+ category +:+ "&page=" +:+ str_int (default 1%Z page) in
  serves host w u (JArray posts) ->
  Forall (has_paths post_paths) posts ->
  (page = None ->
   u = str_env (WORDPRESS_URL host) +:+ "/wp-json/wp/v2/posts?categories="
         +:+ category +:+ "&page=1") /\
  exists out,
    fetch_posts_by_category_tool host category page w =
      (Ok (JArray out), w ++ [get_request u]) /\
    length out = length posts /\
    Forall2 summary_of posts out.
Proof.
  intros u Hs Hposts. split; [intros ->; reflexivity|].
  destruct (shape_all_posts posts Hposts) as (out & H1 & H2). exists out.
  split; [|split; [symmetry; eapply Forall2_length; eassumption | assumption]].
  etrans; [exact (run_list_tool_served host (FetchPostsByCategory category page) w _ Hs)|].
  simpl. by rewrite (comprehension_ok _ _ _ H1).
Qed.

End SingleTools.

(** ** The shaper over the store and the shaper over values *)

(** X17.  The outcome of shaping a reference depends only on the value
    the reference stands for: when the argument stands for [j], the call
    raises what the shaper raises on [j], or returns a reference that
    stands for the summary of [j]. *)
Theorem heap_shaper_agrees_with_values
    (n : nat) (h : gmap positive Heap.obj) (response : Heap.val) (j : json) :
  Heap.reify n h response = Some j ->
  exists r h',
    Heap.format_post_response_data response h = Some (r, h') /\
    (forall e, r = Raise e -> format_post_response_data j = Raise e) /\
    (forall v, r = Ok v ->
       exists s, format_post_response_data j = Ok s /\ Heap.reify n h' v = Some s).
Proof.
  intros Hj. destruct (heap_format_refines n h response j Hj) as (r & h' & Hrun & Hr).
  exists r, h'. split; [exact Hrun|]. split.
  - intros e ->. exact Hr.
  - intros v ->. exact Hr.
Qed.

(** ** The further properties on the second test double *)

Ltac served status body :=
  exists status, body; split; [vm_compute; reflexivity|];
  split; [lia|vm_compute; reflexivity].

Ltac has_all_paths :=
  repeat constructor; vm_compute; eexists; reflexivity.

Lemma fetch_returns_iff_served_witness :
  (fetch_post_response_data full_host "https://x/wp-json/wp/v2/posts/10" []).1 =
    Ok (sample_post 10 "First" "<p>one</p>").
Proof.
  apply (fetch_returns_iff_served full_host "https://x/wp-json/wp/v2/posts/10" []).
  served 200%Z (post_text 10 "First" "<p>one</p>").
Defined.

Lemma format_post_returns_iff_witness :
  returns (format_post_response_data (sample_post 10 "First" "<p>one</p>")) = true.
Proof.
  apply (format_post_returns_iff (sample_post 10 "First" "<p>one</p>")).
  has_all_paths.
Defined.

Lemma shapers_raise_first_error_witness :
  format_post_response_data post_without_link = Raise (KeyError "link").
Proof.
  apply (shapers_raise_first_error post_without_link (KeyError "link")).
  vm_compute. reflexivity.
Defined.

Lemma format_post_reads_only_six_paths_witness :
  format_post_response_data
    (JObject (delete "status" (sample_post_fields 10 "First" "<p>one</p>"))) =
  format_post_response_data (sample_post 10 "First" "<p>one</p>").
Proof.
  apply format_post_reads_only_six_paths.
  - has_all_paths.
  - repeat constructor; vm_compute; reflexivity.
Defined.

Lemma format_category_projects_witness :
  format_category (JObject news_with_slug) = Ok (JObject news_category).
Proof.
  destruct (format_category_projects news_with_slug) as (H & _).
  - has_all_paths.
  - rewrite H. vm_compute. reflexivity.
Defined.

Lemma list_tool_returns_iff_witness :
  (fetch_pages_tool full_host None None []).1 =
    Ok (JArray [sample_summary 10 "First" "<p>one</p>";
                sample_summary 11 "Second" "<p>two</p>"]) /\
  (forall r, (fetch_pages_tool full_host None None []).1 = Ok r ->
     exists out, r = JArray out /\
       Forall2 (fun x y => format_post_response_data x = Ok y) two_posts out).
Proof.
  assert (Hs : serves full_host [] (list_tool_url full_host (FetchPages None None))
                 (JArray two_posts)) by served 200%Z two_posts_body.
  split.
  - apply (list_tool_returns_iff full_host (FetchPages None None) [] two_posts _ Hs).
    eexists. split; [reflexivity|].
    unfold two_posts. repeat constructor; vm_compute; reflexivity.
  - intros r Hr.
    apply (list_tool_returns_iff full_host (FetchPages None None) [] two_posts r Hs).
    exact Hr.
Defined.

Lemma list_tool_on_other_values_witness :
  (fetch_posts_by_category_tool full_host "3" None []).1 =
    Raise (TypeError (BadSubscript Str)).
Proof.
  destruct (list_tool_on_other_values full_host (FetchPostsByCategory "3" None) []
              (JObject news_category)) as (_ & H & _).
  - served 200%Z news_text.
  - apply H. left. exists news_category. split; [reflexivity|].
    intros E. apply (f_equal (fun m => m !! "id")) in E. vm_compute in E. discriminate.
Defined.

Lemma tool_error_stage_witness :
  exists e,
    (fetch_post_by_id_tool full_host (-5) []).1 = Raise e /\
    is_fetch_class (class_of e) = true.
Proof.
  eexists. split; [vm_compute; reflexivity|].
  match goal with
  | |- is_fetch_class (class_of ?e) = true =>
      destruct (tool_error_stage full_host (CallPostById (-5)) [] e) as [(H & _)|(H & _)]
  end.
  - vm_compute. reflexivity.
  - exact H.
  - vm_compute in H. discriminate.
Defined.

Lemma fetch_wordpress_info_tool_spec_witness :
  (fetch_wordpress_info_tool full_host []).1 =
    Ok (JObject (restrict site_info_keys site_info_fields)) /\
  (fetch_wordpress_info_tool name_only_host []).1 = Raise (KeyError "description").
Proof.
  split.
  - destruct (fetch_wordpress_info_tool_spec full_host [] site_info_fields) as ((H & _) & _).
    + served 200%Z site_info_text.
    + has_all_paths.
    + rewrite H. reflexivity.
  - destruct (fetch_wordpress_info_tool_spec name_only_host [] name_only_fields)
      as (_ & _ & H & _).
    + served 200%Z name_only_text.
    + apply H; vm_compute; [eexists|]; reflexivity.
Defined.

Lemma single_item_tools_spec_witness :
  fetch_page_by_id_tool full_host 10 [] =
    (Raise (TypeError (BadSubscript List)),
     [get_request "https://x/wp-json/wp/v2/pages/10"]).
Proof.
  destruct (single_item_tools_spec full_host (CallPageById 10) 10 [] (JArray two_posts))
    as (_ & _ & H).
  - by right.
  - served 200%Z two_posts_body.
  - exact (H two_posts eq_refl).
Defined.

Lemma fetch_pages_tool_spec_witness :
  exists out,
    fetch_pages_tool full_host None None [] =
      (Ok (JArray out), [get_request "https://x/wp-json/wp/v2/pages?page=1&per_page=2"]) /\
    length out = 2 /\
    Forall2 summary_of two_posts out.
Proof.
  destruct (fetch_pages_tool_spec full_host None None []) as (_ & _ & H).
  apply (H two_posts).
  - served 200%Z two_posts_body.
  - unfold two_posts. do 2 (constructor; [has_all_paths|]). constructor.
Defined.

Lemma fetch_posts_by_category_tool_spec_witness :
  exists out,
    fetch_posts_by_category_tool full_host "7" None [] =
      (Ok (JArray out), [get_request "https://x/wp-json/wp/v2/posts?categories=7&page=1"]) /\
    length out = 2 /\
    Forall2 summary_of two_posts out.
Proof.
  apply (fetch_posts_by_category_tool_spec full_host "7" None [] two_posts).
  - served 200%Z two_posts_body.
  - unfold two_posts. do 2 (constructor; [has_all_paths|]). constructor.
Defined.

Lemma heap_shaper_agrees_with_values_witness :
  exists r h',
    Heap.format_post_response_data (Heap.VRef 1) Heap.sample_store = Some (r, h').
Proof.
  eassert (H : Heap.reify 2 Heap.sample_store (Heap.VRef 1) = Some _)
    by (vm_compute; reflexivity).
  destruct (heap_shaper_agrees_with_values 2 _ _ _ H) as (r & h' & Hrun & _).
  by exists r, h'.
Defined.
